(** * Verification of the monitoring service
    (src/app/services/monitoring_service.py)

    The service is embedded shallowly: the [MonitoringService] object is a
    record, every method is a function in a small state-and-exception
    monad, and calls into external collaborators (the clock, psutil, the
    OpenTelemetry SDK, Flask, flask_login) are answered by an environment
    that is quantified over in the theorems.  Clock readings, durations and
    sampled percentages are exact rationals; the code runs in one thread. *)

From Stdlib Require Import QArith Lqa.
From stdpp Require Import gmap strings list fin_maps pretty.

Local Open Scope string_scope.
Local Open Scope list_scope.

(** ** Values exchanged with the outside world *)

(** A Python exception instance of class [Exception] (or a subclass), which
    is what every [except Exception] of the module catches:
    [type(e).__name__] and [str(e)].  Interrupts such as KeyboardInterrupt
    and SystemExit lie outside [Exception] and outside this model. *)
Record exn := Exn { exc_type : string; exc_message : string }.

(** Attribute values accepted by spans and instruments. *)
Inductive attr_value :=
| AStr (s : string)
| AInt (z : Z)
| ABool (b : bool).

Definition attributes := list (string * attr_value).

(** A span handle returned by the tracer. *)
Definition span := nat.

(** An instrument handle returned by the meter. *)
Definition instrument := string.

(** The gauge callbacks of the service; [create_observable_gauge] is handed
    one of them. *)
Inductive callback :=
| cb_get_cpu_usage
| cb_get_memory_usage
| cb_get_disk_usage
| cb_get_active_users_count.

(** [metrics.Observation(value)]. *)
Record Observation := mkObservation { obs_value : Q }.

(** Calls that leave the module.  The index is the type of the value the
    call returns when it does not raise. *)
Inductive call : Type -> Type :=
| time_time : call Q
| time_sleep (secs : Z) : call unit
| psutil_cpu_percent (interval : Z) : call Q
| psutil_virtual_memory_percent : call Q
| psutil_disk_usage_percent (path : string) : call Q
| import_from (module name : string) : call unit
| get_current_span : call (option span)
| span_is_recording (s : span) : call bool
| span_set_attribute (s : span) (key : string) (v : attr_value) : call unit
| span_record_exception (s : span) (e : exn) : call unit
| start_as_current_span (name : string) : call span
| span_exit (s : span) (exc : option exn) : call bool
| histogram_record (h : instrument) (value : Q) (attrs : attributes) : call unit
| counter_add (c : instrument) (delta : Z) (attrs : attributes) : call unit
| current_user_id : call (option Z)
| app_context_enter : call unit
| app_context_exit (exc : option exn) : call bool
| sdk (what : string) : call unit.

Definition event := sigT call.

Definition ev {X} (c : call X) : event := existT X c.

(** The environment answers the [n]-th external call of a run either with
    an exception or with a value of the type the call returns. *)
Definition env := forall X : Type, nat -> call X -> exn + X.

(** ** The service object *)

(** The attributes of [MonitoringService].  The tracer, the meter, the app and
    the thread are opaque objects: only their presence is kept.  An
    instrument attribute holds the handle the meter returned. *)
Record MonitoringService := mkService {
  enabled : bool;
  connection_string : option string;
  tracer : option unit;
  meter : option unit;
  app : option unit;
  http_request_duration : option instrument;
  http_requests_total : option instrument;
  cpu_usage_gauge : option instrument;
  memory_usage_gauge : option instrument;
  disk_usage_gauge : option instrument;
  db_query_duration : option instrument;
  db_connections_active : option instrument;
  active_users_gauge : option instrument;
  user_sessions_counter : option instrument;
  system_monitor_thread : option unit;
  monitor_interval : Z;
  active_users : gmap Z Q;
  active_user_timeout : Q;
}.

(** [MonitoringService.__init__]. *)
Definition __init__ : MonitoringService :=
  {| enabled := false;
     connection_string := None;
     tracer := None;
     meter := None;
     app := None;
     http_request_duration := None;
     http_requests_total := None;
     cpu_usage_gauge := None;
     memory_usage_gauge := None;
     disk_usage_gauge := None;
     db_query_duration := None;
     db_connections_active := None;
     active_users_gauge := None;
     user_sessions_counter := None;
     system_monitor_thread := None;
     monitor_interval := 60;
     active_users := ∅;
     active_user_timeout := 900 |}.

(** Attribute assignment [self.<field> = v], one setter per assigned field. *)
Definition set_enabled (v : bool) (s : MonitoringService)
    : MonitoringService :=
  mkService v (connection_string s) (tracer s) (meter s) (app s)
    (http_request_duration s) (http_requests_total s) (cpu_usage_gauge s)
    (memory_usage_gauge s) (disk_usage_gauge s) (db_query_duration s)
    (db_connections_active s) (active_users_gauge s)
    (user_sessions_counter s) (system_monitor_thread s) (monitor_interval s)
    (active_users s) (active_user_timeout s).

Definition set_connection_string (v : option string) (s : MonitoringService)
    : MonitoringService :=
  mkService (enabled s) v (tracer s) (meter s) (app s)
    (http_request_duration s) (http_requests_total s) (cpu_usage_gauge s)
    (memory_usage_gauge s) (disk_usage_gauge s) (db_query_duration s)
    (db_connections_active s) (active_users_gauge s)
    (user_sessions_counter s) (system_monitor_thread s) (monitor_interval s)
    (active_users s) (active_user_timeout s).

Definition set_tracer (v : option unit) (s : MonitoringService)
    : MonitoringService :=
  mkService (enabled s) (connection_string s) v (meter s) (app s)
    (http_request_duration s) (http_requests_total s) (cpu_usage_gauge s)
    (memory_usage_gauge s) (disk_usage_gauge s) (db_query_duration s)
    (db_connections_active s) (active_users_gauge s)
    (user_sessions_counter s) (system_monitor_thread s) (monitor_interval s)
    (active_users s) (active_user_timeout s).

Definition set_meter (v : option unit) (s : MonitoringService)
    : MonitoringService :=
  mkService (enabled s) (connection_string s) (tracer s) v (app s)
    (http_request_duration s) (http_requests_total s) (cpu_usage_gauge s)
    (memory_usage_gauge s) (disk_usage_gauge s) (db_query_duration s)
    (db_connections_active s) (active_users_gauge s)
    (user_sessions_counter s) (system_monitor_thread s) (monitor_interval s)
    (active_users s) (active_user_timeout s).

Definition set_app (v : option unit) (s : MonitoringService)
    : MonitoringService :=
  mkService (enabled s) (connection_string s) (tracer s) (meter s) v
    (http_request_duration s) (http_requests_total s) (cpu_usage_gauge s)
    (memory_usage_gauge s) (disk_usage_gauge s) (db_query_duration s)
    (db_connections_active s) (active_users_gauge s)
    (user_sessions_counter s) (system_monitor_thread s) (monitor_interval s)
    (active_users s) (active_user_timeout s).

Definition set_http_request_duration (v : option instrument) (s : MonitoringService)
    : MonitoringService :=
  mkService (enabled s) (connection_string s) (tracer s) (meter s) (app s) v
    (http_requests_total s) (cpu_usage_gauge s) (memory_usage_gauge s)
    (disk_usage_gauge s) (db_query_duration s) (db_connections_active s)
    (active_users_gauge s) (user_sessions_counter s)
    (system_monitor_thread s) (monitor_interval s) (active_users s)
    (active_user_timeout s).

Definition set_http_requests_total (v : option instrument) (s : MonitoringService)
    : MonitoringService :=
  mkService (enabled s) (connection_string s) (tracer s) (meter s) (app s)
    (http_request_duration s) v (cpu_usage_gauge s) (memory_usage_gauge s)
    (disk_usage_gauge s) (db_query_duration s) (db_connections_active s)
    (active_users_gauge s) (user_sessions_counter s)
    (system_monitor_thread s) (monitor_interval s) (active_users s)
    (active_user_timeout s).

Definition set_cpu_usage_gauge (v : option instrument) (s : MonitoringService)
    : MonitoringService :=
  mkService (enabled s) (connection_string s) (tracer s) (meter s) (app s)
    (http_request_duration s) (http_requests_total s) v
    (memory_usage_gauge s) (disk_usage_gauge s) (db_query_duration s)
    (db_connections_active s) (active_users_gauge s)
    (user_sessions_counter s) (system_monitor_thread s) (monitor_interval s)
    (active_users s) (active_user_timeout s).

Definition set_memory_usage_gauge (v : option instrument) (s : MonitoringService)
    : MonitoringService :=
  mkService (enabled s) (connection_string s) (tracer s) (meter s) (app s)
    (http_request_duration s) (http_requests_total s) (cpu_usage_gauge s) v
    (disk_usage_gauge s) (db_query_duration s) (db_connections_active s)
    (active_users_gauge s) (user_sessions_counter s)
    (system_monitor_thread s) (monitor_interval s) (active_users s)
    (active_user_timeout s).

Definition set_disk_usage_gauge (v : option instrument) (s : MonitoringService)
    : MonitoringService :=
  mkService (enabled s) (connection_string s) (tracer s) (meter s) (app s)
    (http_request_duration s) (http_requests_total s) (cpu_usage_gauge s)
    (memory_usage_gauge s) v (db_query_duration s) (db_connections_active s)
    (active_users_gauge s) (user_sessions_counter s)
    (system_monitor_thread s) (monitor_interval s) (active_users s)
    (active_user_timeout s).

Definition set_db_query_duration (v : option instrument) (s : MonitoringService)
    : MonitoringService :=
  mkService (enabled s) (connection_string s) (tracer s) (meter s) (app s)
    (http_request_duration s) (http_requests_total s) (cpu_usage_gauge s)
    (memory_usage_gauge s) (disk_usage_gauge s) v (db_connections_active s)
    (active_users_gauge s) (user_sessions_counter s)
    (system_monitor_thread s) (monitor_interval s) (active_users s)
    (active_user_timeout s).

Definition set_active_users_gauge (v : option instrument) (s : MonitoringService)
    : MonitoringService :=
  mkService (enabled s) (connection_string s) (tracer s) (meter s) (app s)
    (http_request_duration s) (http_requests_total s) (cpu_usage_gauge s)
    (memory_usage_gauge s) (disk_usage_gauge s) (db_query_duration s)
    (db_connections_active s) v (user_sessions_counter s)
    (system_monitor_thread s) (monitor_interval s) (active_users s)
    (active_user_timeout s).

Definition set_user_sessions_counter (v : option instrument) (s : MonitoringService)
    : MonitoringService :=
  mkService (enabled s) (connection_string s) (tracer s) (meter s) (app s)
    (http_request_duration s) (http_requests_total s) (cpu_usage_gauge s)
    (memory_usage_gauge s) (disk_usage_gauge s) (db_query_duration s)
    (db_connections_active s) (active_users_gauge s) v
    (system_monitor_thread s) (monitor_interval s) (active_users s)
    (active_user_timeout s).

Definition set_system_monitor_thread (v : option unit) (s : MonitoringService)
    : MonitoringService :=
  mkService (enabled s) (connection_string s) (tracer s) (meter s) (app s)
    (http_request_duration s) (http_requests_total s) (cpu_usage_gauge s)
    (memory_usage_gauge s) (disk_usage_gauge s) (db_query_duration s)
    (db_connections_active s) (active_users_gauge s)
    (user_sessions_counter s) v (monitor_interval s) (active_users s)
    (active_user_timeout s).

Definition set_active_users (v : gmap Z Q) (s : MonitoringService)
    : MonitoringService :=
  mkService (enabled s) (connection_string s) (tracer s) (meter s) (app s)
    (http_request_duration s) (http_requests_total s) (cpu_usage_gauge s)
    (memory_usage_gauge s) (disk_usage_gauge s) (db_query_duration s)
    (db_connections_active s) (active_users_gauge s)
    (user_sessions_counter s) (system_monitor_thread s) (monitor_interval s)
    v (active_user_timeout s).

(** ** Flask context *)

(** The parts of [flask.request] the service reads. *)
Record Request := mkRequest {
  method : string;
  endpoint : option string;
  x_forwarded_for : option string;
  remote_addr : option string;
}.

(** The parts of the response object the service reads; the hook hands the
    object back as it received it. *)
Record Response := mkResponse {
  status_code : Z;
  body : string;
}.

(** The attributes the hooks keep on [flask.g]; [None] is an attribute that
    was never set ([hasattr] is false). *)
Record G := mkG {
  request_start_time : option Q;
  user_id : option string;
}.

(** Values found in a [properties] dictionary, and [str(value)]. *)
Inductive pyvalue :=
| PyStr (s : string)
| PyInt (z : Z)
| PyBool (b : bool)
| PyNone.

Definition str (v : pyvalue) : string :=
  match v with
  | PyStr s => s
  | PyInt z => pretty z
  | PyBool true => "True"
  | PyBool false => "False"
  | PyNone => "None"
  end.

(** ** The instrument registry *)

Inductive kind := Counter | Histogram | ObservableGauge.

Record Instrument := mkInstrument {
  inst_kind : kind;
  inst_name : string;
  inst_description : string;
  inst_unit : string;
  inst_callbacks : list callback;
}.

(** Log records written through [logger]. *)
Inductive level := DEBUG | INFO | WARNING | ERROR.

(** ** The world and the monad *)

Record world := mkWorld {
  svc : MonitoringService;
  flask_g : G;
  flask_request : option Request;
  registry : list Instrument;
  trail : list event;
  logged : list (level * string);
}.

Definition set_svc (s : MonitoringService) (w : world) : world :=
  mkWorld s (flask_g w) (flask_request w) (registry w) (trail w) (logged w).

Definition set_flask_g (g : G) (w : world) : world :=
  mkWorld (svc w) g (flask_request w) (registry w) (trail w) (logged w).

Definition set_registry (r : list Instrument) (w : world) : world :=
  mkWorld (svc w) (flask_g w) (flask_request w) r (trail w) (logged w).

Definition set_trail (t : list event) (w : world) : world :=
  mkWorld (svc w) (flask_g w) (flask_request w) (registry w) t (logged w).

Definition set_logged (l : list (level * string)) (w : world) : world :=
  mkWorld (svc w) (flask_g w) (flask_request w) (registry w) (trail w) l.

Inductive result (A : Type) :=
| Returned (a : A)
| Raised (e : exn).
Arguments Returned {A} a.
Arguments Raised {A} e.

Definition M (A : Type) := world -> result A * world.

Definition ret {A} (a : A) : M A := fun w => (Returned a, w).

Definition bind {A B} (m : M A) (k : A -> M B) : M B :=
  fun w => match m w with
           | (Returned a, w') => k a w'
           | (Raised e, w') => (Raised e, w')
           end.

Definition raise {A} (e : exn) : M A := fun w => (Raised e, w).

(** [try: body except Exception as e: handler e]. *)
Definition try_except {A} (body : M A) (handler : exn -> M A) : M A :=
  fun w => match body w with
           | (Returned a, w') => (Returned a, w')
           | (Raised e, w') => handler e w'
           end.

Notation "x <- m ;; k" := (bind m (fun x => k))
  (at level 100, m at next level, right associativity).
Notation "m ;;; k" := (bind m (fun _ => k))
  (at level 100, right associativity).

Definition get_self : M MonitoringService := fun w => (Returned (svc w), w).

(** [self.<field> = v] through one of the setters. *)
Definition assign (f : MonitoringService -> MonitoringService) : M unit :=
  fun w => (Returned tt, set_svc (f (svc w)) w).

Definition get_g : M G := fun w => (Returned (flask_g w), w).

Definition put_g (g : G) : M unit := fun w => (Returned tt, set_flask_g g w).

(** Reading an attribute of [flask.request] needs a request context. *)
Definition get_request : M Request :=
  fun w => match flask_request w with
           | Some r => (Returned r, w)
           | None => (Raised (Exn "RuntimeError" "Working outside of request context."), w)
           end.

(** [logger.<level>(msg)]: the logging module reports handler errors on its
    own and does not raise into the caller. *)
Definition logger (l : level) (msg : string) : M unit :=
  fun w => (Returned tt, set_logged (logged w ++ [(l, msg)]) w).

(** [for x in xs: body x]. *)
Fixpoint for_each {A} (xs : list A) (body : A -> M unit) : M unit :=
  match xs with
  | [] => ret tt
  | x :: xs' => body x ;;; for_each xs' body
  end.

(** [x > y] on timestamps. *)
Definition Qgt_bool (x y : Q) : bool := negb (Qle_bool x y).

(** Truthiness of a string-valued expression that may be [None]. *)
Definition truthy (s : option string) : bool :=
  match s with
  | Some (String _ _) => true
  | _ => false
  end.

(** [s or d] for a string-valued [s] that may be [None]. *)
Definition or_else (s : option string) (d : string) : string :=
  if truthy s then default d s else d.

(** [s.split(',')[0]]. *)
Fixpoint before_comma (s : string) : string :=
  match s with
  | EmptyString => EmptyString
  | String a s' => if Ascii.eqb a (Ascii.ascii_of_nat 44) then EmptyString else String a (before_comma s')
  end.

(** The characters [str.strip()] removes.  A character of the stripped
    value is a code point below 256: the value is a WSGI header, decoded as
    latin-1, or the remote address.  In that range [str.isspace] holds of
    the code points 9 to 13, 28 to 32, 133 (U+0085) and 160 (U+00A0). *)
Definition is_py_space (a : Ascii.ascii) : bool :=
  let n := Ascii.nat_of_ascii a in
  ((9 <=? n)%nat && (n <=? 13)%nat) || ((28 <=? n)%nat && (n <=? 32)%nat)
  || (n =? 133)%nat || (n =? 160)%nat.

Fixpoint lstrip (s : string) : string :=
  match s with
  | EmptyString => EmptyString
  | String a s' => if is_py_space a then lstrip s' else s
  end.

Definition strip (s : string) : string :=
  String.rev (lstrip (String.rev (lstrip s))).

(** ** Modelled parts of the meter *)

(** Modelled from the spec: the meter behind [self.meter.create_counter],
    [create_histogram] and [create_observable_gauge] is the telemetry SDK's
    and is not part of the source file.  Section 4.1 of the specification
    gives its contract: registration under a name that is already registered
    fails with DuplicateInstrument, otherwise the instrument is added and a
    handle to it is returned. *)
Definition register (i : Instrument) : M instrument :=
  fun w =>
    if bool_decide (inst_name i ∈ map inst_name (registry w))
    then (Raised (Exn "DuplicateInstrument" (inst_name i)), w)
    else (Returned (inst_name i), set_registry (registry w ++ [i]) w).

Definition register_counter (name description unit : string) : M instrument :=
  register (mkInstrument Counter name description unit []).

Definition register_histogram (name description unit : string) : M instrument :=
  register (mkInstrument Histogram name description unit []).

Definition register_observable_gauge (name description unit : string)
    (callbacks : list callback) : M instrument :=
  register (mkInstrument ObservableGauge name description unit callbacks).

Section Service.

Context (E : env).

(** An external call: recorded on the trail, answered by the environment. *)
Definition ext {X} (c : call X) : M X :=
  fun w =>
    let w' := set_trail (trail w ++ [ev c]) w in
    match E X (length (trail w)) c with
    | inl e => (Raised e, w')
    | inr x => (Returned x, w')
    end.

(** [with enter as x: body x], leaving through [leave x exc]; a true result
    of [leave] on the exceptional path suppresses the exception. *)
Definition with_ {X} (enter : call X) (leave : X -> option exn -> call bool)
    (body : X -> M unit) : M unit :=
  x <- ext enter ;;
  fun w => match body x w with
           | (Returned _, w1) => (ext (leave x None) ;;; ret tt) w1
           | (Raised e, w1) =>
               (suppress <- ext (leave x (Some e)) ;;
                if suppress : bool then ret tt else raise e) w1
           end.

(** [with self.tracer.start_as_current_span(name) as span: body span]. *)
Definition with_span (name : string) (body : span -> M unit) : M unit :=
  with_ (start_as_current_span name) span_exit body.

(** [if properties: for key, value in properties.items():
       span.set_attribute(key, str(value))]. *)
Definition set_properties (sp : span) (properties : option (list (string * pyvalue))) : M unit :=
  match properties with
  | Some ((_ :: _) as items) =>
      for_each items (fun '(key, value) => ext (span_set_attribute sp key (AStr (str value))))
  | _ => ret tt
  end.

(** *** Active user tracking *)

Definition _track_user_activity (user_id : Z) : M unit :=
  try_except
    (now <- ext time_time ;;
     self <- get_self ;;
     assign (set_active_users (<[user_id := now]> (active_users self))) ;;;
     current_time <- ext time_time ;;
     self <- get_self ;;
     let inactive_users :=
       map fst
         (List.filter
            (fun '(uid, last_active) =>
               Qgt_bool (current_time - last_active) (active_user_timeout self))
            (map_to_list (active_users self))) in
     for_each inactive_users
       (fun uid =>
          self <- get_self ;;
          assign (set_active_users (delete uid (active_users self)))))
    (fun e =>
       logger WARNING ("[MONITORING] Error tracking user activity: " +:+ exc_message e)).

Definition _get_active_users_count : M (list Observation) :=
  try_except
    (current_time <- ext time_time ;;
     self <- get_self ;;
     assign
       (set_active_users
          (list_to_map
             (List.filter
                (fun '(uid, last_active) =>
                   Qle_bool (current_time - last_active) (active_user_timeout self))
                (map_to_list (active_users self))))) ;;;
     self <- get_self ;;
     ret [mkObservation (inject_Z (Z.of_nat (size (active_users self))))])
    (fun e =>
       logger WARNING ("[MONITORING] Error getting active users count: " +:+ exc_message e) ;;;
       ret []).

(** *** System gauges *)

Definition _get_cpu_usage : M (list Observation) :=
  try_except
    (cpu_percent <- ext (psutil_cpu_percent 1) ;;
     ret [mkObservation cpu_percent])
    (fun e =>
       logger WARNING ("[MONITORING] Error getting CPU usage: " +:+ exc_message e) ;;;
       ret []).

Definition _get_memory_usage : M (list Observation) :=
  try_except
    (percent <- ext psutil_virtual_memory_percent ;;
     ret [mkObservation percent])
    (fun e =>
       logger WARNING ("[MONITORING] Error getting memory usage: " +:+ exc_message e) ;;;
       ret []).

Definition _get_disk_usage : M (list Observation) :=
  try_except
    (percent <- ext (psutil_disk_usage_percent "/") ;;
     ret [mkObservation percent])
    (fun e =>
       logger WARNING ("[MONITORING] Error getting disk usage: " +:+ exc_message e) ;;;
       ret []).

(** The code behind each callback reference handed to the meter. *)
Definition run_callback (cb : callback) : M (list Observation) :=
  match cb with
  | cb_get_cpu_usage => _get_cpu_usage
  | cb_get_memory_usage => _get_memory_usage
  | cb_get_disk_usage => _get_disk_usage
  | cb_get_active_users_count => _get_active_users_count
  end.

(** *** Instrument creation *)

Definition _create_metrics : M unit :=
  self <- get_self ;;
  match meter self with
  | None => ret tt
  | Some _ =>
      h <- register_histogram "http.server.request.duration"
             "HTTP request duration in milliseconds" "ms" ;;
      assign (set_http_request_duration (Some h)) ;;;
      c <- register_counter "http.server.requests.total"
             "Total number of HTTP requests" "1" ;;
      assign (set_http_requests_total (Some c)) ;;;
      g <- register_observable_gauge "system.cpu.usage"
             "CPU usage percentage" "%" [cb_get_cpu_usage] ;;
      assign (set_cpu_usage_gauge (Some g)) ;;;
      g <- register_observable_gauge "system.memory.usage"
             "Memory usage percentage" "%" [cb_get_memory_usage] ;;
      assign (set_memory_usage_gauge (Some g)) ;;;
      g <- register_observable_gauge "system.disk.usage"
             "Disk usage percentage" "%" [cb_get_disk_usage] ;;
      assign (set_disk_usage_gauge (Some g)) ;;;
      h <- register_histogram "db.query.duration"
             "Database query duration in milliseconds" "ms" ;;
      assign (set_db_query_duration (Some h)) ;;;
      g <- register_observable_gauge "app.users.active"
             "Number of currently active users" "1" [cb_get_active_users_count] ;;
      assign (set_active_users_gauge (Some g)) ;;;
      c <- register_counter "app.user.sessions" "User session events" "1" ;;
      assign (set_user_sessions_counter (Some c))
  end.

(** *** Custom tracking *)

Definition track_custom_event (name : string)
    (properties : option (list (string * pyvalue))) : M unit :=
  self <- get_self ;;
  if negb (enabled self) || negb (bool_decide (is_Some (tracer self))) then ret tt
  else
    try_except
      (with_span name (fun span => set_properties span properties))
      (fun e =>
         logger WARNING ("[MONITORING] Error tracking custom event: " +:+ exc_message e)).

Definition track_database_query (query_name : string) (duration_ms : Q)
    (success : bool) : M unit :=
  self <- get_self ;;
  match enabled self, db_query_duration self with
  | true, Some h =>
      try_except
        (ext (histogram_record h duration_ms
                [("db.query.name", AStr query_name);
                 ("db.query.success", ABool success)]))
        (fun e =>
           logger WARNING ("[MONITORING] Error tracking database query: " +:+ exc_message e))
  | _, _ => ret tt
  end.

Definition track_user_session (user_id : Z) (event_type : string)
    (properties : option (list (string * pyvalue))) : M unit :=
  self <- get_self ;;
  if negb (enabled self) || negb (bool_decide (is_Some (tracer self))) then ret tt
  else
    try_except
      (ext (import_from "flask" "request") ;;;
       ext (import_from "opentelemetry" "trace") ;;;
       current_span <- ext get_current_span ;;
       match current_span with
       | Some cs =>
           ext (span_set_attribute cs "enduser.id" (AStr (pretty user_id))) ;;;
           ext (span_set_attribute cs "user_AuthenticatedId" (AStr (pretty user_id)))
       | None => ret tt
       end ;;;
       with_span ("user_session_" +:+ event_type)
         (fun span =>
            ext (span_set_attribute span "user.id" (AStr (pretty user_id))) ;;;
            ext (span_set_attribute span "enduser.id" (AStr (pretty user_id))) ;;;
            ext (span_set_attribute span "user_AuthenticatedId" (AStr (pretty user_id))) ;;;
            ext (span_set_attribute span "session.event" (AStr event_type)) ;;;
            try_except
              (request <- get_request ;;
               let user_ip :=
                 match x_forwarded_for request with
                 | Some v => Some v
                 | None => remote_addr request
                 end in
               match user_ip with
               | Some ip =>
                   if truthy user_ip
                   then ext (span_set_attribute span "client.ip"
                               (AStr (strip (before_comma ip))))
                   else ret tt
               | None => ret tt
               end)
              (fun _ => ret tt) ;;;
            set_properties span properties) ;;;
       self <- get_self ;;
       match user_sessions_counter self with
       | Some c => ext (counter_add c 1 [("session.event", AStr event_type)])
       | None => ret tt
       end)
      (fun e =>
         logger WARNING ("[MONITORING] Error tracking user session: " +:+ exc_message e)).

(** *** Flask hooks *)

Definition before_request : M unit :=
  now <- ext time_time ;;
  g <- get_g ;;
  put_g (mkG (Some now) (user_id g)) ;;;
  try_except
    (ext (import_from "flask_login" "current_user") ;;;
     ext (import_from "opentelemetry" "trace") ;;;
     current_user <- ext current_user_id ;;
     match current_user with
     | Some id =>
         let user_id := pretty id in
         _track_user_activity id ;;;
         g <- get_g ;;
         put_g (mkG (request_start_time g) (Some user_id)) ;;;
         current_span <- ext get_current_span ;;
         match current_span with
         | Some cs =>
             recording <- ext (span_is_recording cs) ;;
             if recording : bool then
               ext (span_set_attribute cs "enduser.id" (AStr user_id)) ;;;
               ext (span_set_attribute cs "ai.user.id" (AStr user_id)) ;;;
               ext (span_set_attribute cs "ai.user.authUserId" (AStr user_id)) ;;;
               ext (span_set_attribute cs "user_id" (AStr user_id)) ;;;
               logger DEBUG ("[MONITORING] Set user context on span for user " +:+ user_id)
             else ret tt
         | None => ret tt
         end
     | None => ret tt
     end)
    (fun e => logger WARNING ("[MONITORING] Error setting user context: " +:+ exc_message e)).

Definition after_request (response : Response) : M Response :=
  self <- get_self ;;
  if negb (enabled self) then ret response
  else
    try_except
      (ext (import_from "flask_login" "current_user") ;;;
       ext (import_from "opentelemetry" "trace") ;;;
       g <- get_g ;;
       match user_id g with
       | Some user_id =>
           current_span <- ext get_current_span ;;
           match current_span with
           | Some cs =>
               recording <- ext (span_is_recording cs) ;;
               if recording : bool then
                 ext (span_set_attribute cs "ai.user.authUserId" (AStr user_id)) ;;;
                 ext (span_set_attribute cs "user_id" (AStr user_id))
               else ret tt
           | None => ret tt
           end
       | None => ret tt
       end)
      (fun e =>
         logger DEBUG ("[MONITORING] Error in after_request user context: " +:+ exc_message e)) ;;;
    try_except
      (g <- get_g ;;
       match request_start_time g with
       | Some start =>
           now <- ext time_time ;;
           let duration_ms := ((now - start) * 1000)%Q in
           self <- get_self ;;
           match http_request_duration self with
           | Some h =>
               request <- get_request ;;
               ext (histogram_record h duration_ms
                      [("http.method", AStr (method request));
                       ("http.route", AStr (or_else (endpoint request) "unknown"));
                       ("http.status_code", AInt (status_code response))])
           | None => ret tt
           end ;;;
           self <- get_self ;;
           match http_requests_total self with
           | Some c =>
               request <- get_request ;;
               ext (counter_add c 1
                      [("http.method", AStr (method request));
                       ("http.status_code", AInt (status_code response))])
           | None => ret tt
           end
       | None => ret tt
       end)
      (fun e => logger WARNING ("[MONITORING] Error tracking request: " +:+ exc_message e)) ;;;
    ret response.

Definition handle_exception (error : exn) : M Response :=
  self <- get_self ;;
  (if enabled self && bool_decide (is_Some (tracer self)) then
     try_except
       (with_span "error_handler"
          (fun span =>
             ext (span_set_attribute span "error.type" (AStr (exc_type error))) ;;;
             ext (span_set_attribute span "error.message" (AStr (exc_message error))) ;;;
             ext (span_record_exception span error)))
       (fun _ => ret tt)
   else ret tt) ;;;
  raise error.

(** *** The background thread *)

(** One round of the loop in [monitor_system_health]. *)
Definition monitor_system_health_round : M unit :=
  try_except
    (self <- get_self ;;
     ext (time_sleep (monitor_interval self)))
    (fun e =>
       logger ERROR ("[MONITORING] System health monitoring error: " +:+ exc_message e)).

(** [while self.enabled: ...], cut off after [rounds] rounds. *)
Fixpoint monitor_system_health (rounds : nat) : M unit :=
  match rounds with
  | O => ret tt
  | S n =>
      self <- get_self ;;
      if enabled self then monitor_system_health_round ;;; monitor_system_health n
      else ret tt
  end.

(** *** Initialisation

    The [print] calls of [init_app] write to the console only and are left
    out. *)

Definition _instrument_libraries : M unit :=
  try_except
    (ext (sdk "FlaskInstrumentor().instrument_app(app)") ;;;
     logger INFO "[MONITORING] Flask auto-instrumentation enabled" ;;;
     ext (sdk "RequestsInstrumentor().instrument()") ;;;
     logger INFO "[MONITORING] Requests auto-instrumentation enabled" ;;;
     try_except
       (with_ app_context_enter (fun _ => app_context_exit)
          (fun _ =>
             ext (import_from "app" "db") ;;;
             ext (sdk "SQLAlchemyInstrumentor().instrument(engine=db.engine, enable_commenter=True)") ;;;
             logger INFO "[MONITORING] SQLAlchemy auto-instrumentation enabled"))
       (fun e =>
          logger WARNING ("[MONITORING] SQLAlchemy instrumentation failed: " +:+ exc_message e)))
    (fun e =>
       logger WARNING ("[MONITORING] Auto-instrumentation partial failure: " +:+ exc_message e)).

Definition _register_flask_hooks : M unit :=
  ext (sdk "app.before_request(before_request)") ;;;
  ext (sdk "app.after_request(after_request)") ;;;
  ext (sdk "app.errorhandler(Exception)(handle_exception)").

Definition _start_system_monitoring : M unit :=
  ext (sdk "Thread(target=monitor_system_health, daemon=True)") ;;;
  assign (set_system_monitor_thread (Some tt)) ;;;
  ext (sdk "system_monitor_thread.start()") ;;;
  logger INFO "[MONITORING] System health monitoring thread started".

Definition init_app (appinsights_connection_string : option string) : M unit :=
  assign (set_app (Some tt)) ;;;
  assign (set_connection_string appinsights_connection_string) ;;;
  self <- get_self ;;
  if negb (truthy (connection_string self)) then
    logger WARNING "[MONITORING] No Application Insights connection string configured"
  else
    try_except
      (ext (sdk "os.getenv('FLASK_ENV', 'production')") ;;;
       ext (sdk "Resource.create") ;;;
       try_except
         (ext (sdk "trace.get_tracer(__name__)") ;;;
          assign (set_tracer (Some tt)) ;;;
          logger INFO "[MONITORING] Reusing existing tracer from logging service")
         (fun te =>
            ext (sdk "TracerProvider(resource=resource)") ;;;
            ext (sdk "AzureMonitorTraceExporter(connection_string)") ;;;
            ext (import_from "opentelemetry.sdk.trace.export" "BatchSpanProcessor") ;;;
            ext (sdk "BatchSpanProcessor(trace_exporter)") ;;;
            ext (sdk "trace_provider.add_span_processor") ;;;
            ext (sdk "trace.set_tracer_provider(trace_provider)") ;;;
            ext (sdk "trace.get_tracer(__name__)") ;;;
            assign (set_tracer (Some tt)) ;;;
            logger INFO "[MONITORING] Created new tracer with custom processors") ;;;
       ext (sdk "MeterProvider(resource=resource)") ;;;
       ext (sdk "AzureMonitorMetricExporter(connection_string)") ;;;
       ext (import_from "opentelemetry.sdk.metrics.export" "PeriodicExportingMetricReader") ;;;
       ext (sdk "PeriodicExportingMetricReader(metric_exporter, export_interval_millis=60000)") ;;;
       ext (sdk "MeterProvider(resource=resource, metric_readers=[metric_reader])") ;;;
       ext (sdk "metrics.set_meter_provider(metric_provider)") ;;;
       ext (sdk "metrics.get_meter(__name__)") ;;;
       assign (set_meter (Some tt)) ;;;
       _create_metrics ;;;
       _instrument_libraries ;;;
       _register_flask_hooks ;;;
       _start_system_monitoring ;;;
       assign (set_enabled true) ;;;
       logger INFO "[MONITORING] Enhanced monitoring initialized successfully" ;;;
       logger INFO "[MONITORING] Tracking: Performance, System Health, Database, Errors")
      (fun e =>
         logger ERROR ("[MONITORING] Failed to initialize: " +:+ exc_message e) ;;;
         assign (set_enabled false)).

End Service.

(** ** Reference notions used by the statements *)

(** A history of touches: the identity and the time stored for it, oldest
    first. *)
Definition history := list (Z * Q).

(** The time of the most recent touch of [id] in a history. *)
Fixpoint last_touch (id : Z) (tr : history) : option Q :=
  match tr with
  | [] => None
  | (i, T) :: tr' =>
      match last_touch id tr' with
      | Some T' => Some T'
      | None => if decide (i = id) then Some T else None
      end
  end.

(** [id]'s most recent touch lies within the last [timeout] seconds at [t]. *)
Definition counted (timeout t : Q) (tr : history) (id : Z) : bool :=
  match last_touch id tr with
  | Some T => Qle_bool (t - T) timeout
  | None => false
  end.

(** The number of distinct identities touched within the window. *)
Definition windowed_cardinality (timeout t : Q) (tr : history) : nat :=
  size (filter (fun id => counted timeout t tr id = true)
          (list_to_set (map fst tr) : gset Z)).

(** The operations of the tracker, under the names of the specification. *)
Inductive op :=
| touch (id : Z)
| count.

(** The clock readings an operation takes. *)
Definition reads (o : op) : nat :=
  match o with
  | touch _ => 2%nat
  | count => 1%nat
  end.

Definition total_reads (ops : list op) : nat := sum_list (map reads ops).

(** The history a run of operations writes when it starts at position [p]
    of the trail: a touch reads the clock twice and stores the first
    reading, a count read reads the clock once and stores nothing. *)
Fixpoint stamps (clk : nat -> Q) (p : nat) (ops : list op) : history :=
  match ops with
  | [] => []
  | touch id :: ops' => (id, clk p) :: stamps clk (S (S p)) ops'
  | count :: ops' => stamps clk (S p) ops'
  end.

(** The names under which [_create_metrics] registers its instruments, in
    the order of registration. *)
Definition service_instrument_names : list string :=
  ["http.server.request.duration"; "http.server.requests.total";
   "system.cpu.usage"; "system.memory.usage"; "system.disk.usage";
   "db.query.duration"; "app.users.active"; "app.user.sessions"].

(** The world after instrument [i] was registered and the service field
    was assigned by [f]. *)
Definition after_register (i : Instrument) (f : MonitoringService -> MonitoringService)
    (w : world) : world :=
  set_svc (f (svc w)) (set_registry (registry w ++ [i]) w).

(** The collaborator call a gauge callback samples. *)
Definition sampling_call (cb : callback) : call Q :=
  match cb with
  | cb_get_cpu_usage => psutil_cpu_percent 1
  | cb_get_memory_usage => psutil_virtual_memory_percent
  | cb_get_disk_usage => psutil_disk_usage_percent "/"
  | cb_get_active_users_count => time_time
  end.

Section Drivers.
Context (E : env).

(** The code behind an operation of the tracker. *)
Definition run_op (o : op) : M unit :=
  match o with
  | touch id => _track_user_activity E id
  | count => _get_active_users_count E ;;; ret tt
  end.

(** Modelled from the spec: the flush of section 4.1 belongs to the SDK's
    periodic reader and is not part of the source file.  At a tick it invokes
    the callback of each gauge and collects the observations.  It is given
    without exception handling of its own: a callback that raised would abort
    the tick and the loop. *)
Fixpoint flush (gauges : list callback) : M (list (list Observation)) :=
  match gauges with
  | [] => ret []
  | cb :: rest =>
      obs <- run_callback E cb ;;
      others <- flush rest ;;
      ret (obs :: others)
  end.

Fixpoint flush_ticks (gauges : list callback) (ticks : nat)
    : M (list (list (list Observation))) :=
  match ticks with
  | O => ret []
  | S n =>
      row <- flush gauges ;;
      rows <- flush_ticks gauges n ;;
      ret (row :: rows)
  end.

End Drivers.

(** What the map holds after the touches of a history, when the clock at
    position [q] and later reads at least [clk q]: every identity is either
    stored with the time of its most recent touch, or was evicted and has by
    now been expired for good. *)
Definition tracks (clk : nat -> Q) (q : nat) (timeout : Q) (tr : history)
    (m : gmap Z Q) : Prop :=
  forall id,
    match last_touch id tr with
    | Some T => m !! id = Some T \/ (m !! id = None /\ (timeout < clk q - T)%Q)
    | None => m !! id = None
    end.

(** An entry is live at [now] when it is not older than [timeout]. *)
Definition live (timeout now : Q) (kv : Z * Q) : bool :=
  Qle_bool (now - kv.2) timeout.

(** The map without its expired entries. *)
Definition sweep (timeout now : Q) (m : gmap Z Q) : gmap Z Q :=
  filter (fun kv => live timeout now kv = true) m.

Definition with_users (m : gmap Z Q) (w : world) : world :=
  set_svc (set_active_users m (svc w)) w.

Definition stepped (cs : list event) (w : world) : world :=
  set_trail (trail w ++ cs) w.

(** A computation that returns a value in every world. *)
Definition never_raises {A} (m : M A) : Prop :=
  forall w, exists a w', m w = (Returned a, w').

(** The calls that record into an instrument. *)
Definition is_metric (e : event) : bool :=
  match e with
  | existT _ (histogram_record _ _ _) => true
  | existT _ (counter_add _ _ _) => true
  | _ => false
  end.

(** The service object is the same in both worlds. *)
Definition same_svc (w w' : world) : Prop := svc w' = svc w.

(** The active-user map is the same in both worlds. *)
Definition same_users (w w' : world) : Prop :=
  active_users (svc w') = active_users (svc w).

(** Between the two worlds only calls that record no metric were made, and
    the service object and the Flask context are the same. *)
Definition no_metric_between (w w' : world) : Prop :=
  svc w' = svc w /\ flask_g w' = flask_g w /\ flask_request w' = flask_request w
  /\ exists pre, trail w' = trail w ++ pre /\ List.filter is_metric pre = [].

(** Every run of [m] relates the world before to the world after by [R],
    whether [m] returns or raises. *)
Definition keeps {A} (R : world -> world -> Prop) (m : M A) : Prop :=
  forall w, R w (snd (m w)).

(** An environment in which no call raises; the clock is [clk], read at the
    position of the call. *)
Definition quiet (clk : nat -> Q) : env :=
  fun X n c =>
    match c in call X return exn + X with
    | time_time => inr (clk n)
    | time_sleep _ => inr tt
    | psutil_cpu_percent _ => inr (25 # 2)
    | psutil_virtual_memory_percent => inr (40 # 1)
    | psutil_disk_usage_percent _ => inr (70 # 1)
    | import_from _ _ => inr tt
    | get_current_span => inr (Some 7%nat)
    | span_is_recording _ => inr true
    | span_set_attribute _ _ _ => inr tt
    | span_record_exception _ _ => inr tt
    | start_as_current_span _ => inr 8%nat
    | span_exit _ _ => inr false
    | histogram_record _ _ _ => inr tt
    | counter_add _ _ _ => inr tt
    | current_user_id => inr (Some 42%Z)
    | app_context_enter => inr tt
    | app_context_exit _ => inr false
    | sdk _ => inr tt
    end.

(** No call raises in [E]. *)
Definition calm (E : env) : Prop :=
  forall X n (c : call X), exists x, E X n c = inr x.

(** As [quiet], but the CPU sampler raises every time. *)
Definition cpu_broken (clk : nat -> Q) : env :=
  fun X n c =>
    match c with
    | psutil_cpu_percent _ => inl (Exn "AccessDenied" "cpu times unavailable")
    | _ => quiet clk X n c
    end.

(** An environment in which every call raises. *)
Definition hostile : env :=
  fun X n c => inl (Exn "RuntimeError" "collaborator failure").

(** The world right after construction of the service. *)
Definition fresh : world :=
  mkWorld __init__ (mkG None None) None [] [] [].

(** A tracker holding three identities last seen at 100 s, 500 s and
    1000 s. *)
Definition crowded : world :=
  with_users (<[1%Z := 100%Q]> (<[2%Z := 500%Q]> (<[3%Z := 1000%Q]> ∅))) fresh.

(** A clock that advances by [step] seconds from one reading to the next. *)
Definition ticking (step : Q) : nat -> Q :=
  fun n => (inject_Z (Z.of_nat n) * step)%Q.

(** The world after a successful [init_app], inside a request whose start
    time was captured at 5 s by an authenticated user. *)
Definition serving : world :=
  let w := snd (init_app (quiet (ticking 1)) (Some "InstrumentationKey=k") fresh) in
  mkWorld (svc w) (mkG (Some 5%Q) (Some "42"))
    (Some (mkRequest "GET" (Some "main.index") None (Some "10.0.0.1")))
    (registry w) (trail w) (logged w).

(** ** Notions used by the further properties *)

(** The [client.ip] attribute [track_user_session] sets on span [sp] in
    request context [r]: the first entry of the forwarding header, else the
    remote address, when that is a non-empty string. *)
Definition client_ip_events (sp : span) (r : option Request) : list event :=
  match r with
  | Some request =>
      match x_forwarded_for request, remote_addr request with
      | Some ip, _ | None, Some ip =>
          if truthy (Some ip)
          then [ev (span_set_attribute sp "client.ip" (AStr (strip (before_comma ip))))]
          else []
      | None, None => []
      end
  | None => []
  end.

(** The calls [track_user_session] makes when every collaborator answers:
    [cs] is the current span, [sp] the span of the session event. *)
Definition user_session_calls (cs : option span) (sp : span) (r : option Request)
    (uid : Z) (event_type : string) (properties : option (list (string * pyvalue)))
    : list event :=
  [ev (import_from "flask" "request"); ev (import_from "opentelemetry" "trace");
   ev get_current_span]
  ++ match cs with
     | Some c =>
         [ev (span_set_attribute c "enduser.id" (AStr (pretty uid)));
          ev (span_set_attribute c "user_AuthenticatedId" (AStr (pretty uid)))]
     | None => []
     end
  ++ [ev (start_as_current_span ("user_session_" +:+ event_type));
      ev (span_set_attribute sp "user.id" (AStr (pretty uid)));
      ev (span_set_attribute sp "enduser.id" (AStr (pretty uid)));
      ev (span_set_attribute sp "user_AuthenticatedId" (AStr (pretty uid)));
      ev (span_set_attribute sp "session.event" (AStr event_type))]
  ++ client_ip_events sp r
  ++ map (fun kv => ev (span_set_attribute sp kv.1 (AStr (str kv.2))))
       (default [] properties)
  ++ [ev (span_exit sp None)].

(** Every attribute of the service other than [active_users] is the same in
    both worlds. *)
Definition same_wiring (w w' : world) : Prop :=
  set_active_users ∅ (svc w') = set_active_users ∅ (svc w).

(** The relation the second half of [before_request] keeps: the wiring, the
    request and the captured start time stay, and no metric is recorded. *)
Definition request_untouched (w w' : world) : Prop :=
  same_wiring w w'
  /\ flask_request w' = flask_request w
  /\ request_start_time (flask_g w') = request_start_time (flask_g w)
  /\ exists pre, trail w' = trail w ++ pre /\ List.filter is_metric pre = [].

(** The service object and [flask.g] are the same in both worlds. *)
Definition same_svc_and_g (w w' : world) : Prop :=
  svc w' = svc w /\ flask_g w' = flask_g w.

(** As [quiet], for a request without an authenticated user. *)
Definition anonymous (clk : nat -> Q) : env :=
  fun X n c =>
    match c in call X return exn + X with
    | current_user_id => inr None
    | c' => quiet clk _ n c'
    end.

(** Everything [init_app] sets up is in place: the tracer, the meter, the
    monitoring thread and the eight instruments. *)
Definition wired (s : MonitoringService) : Prop :=
  is_Some (tracer s) /\ is_Some (meter s) /\ is_Some (system_monitor_thread s)
  /\ is_Some (http_request_duration s) /\ is_Some (http_requests_total s)
  /\ is_Some (cpu_usage_gauge s) /\ is_Some (memory_usage_gauge s)
  /\ is_Some (disk_usage_gauge s) /\ is_Some (db_query_duration s)
  /\ is_Some (active_users_gauge s) /\ is_Some (user_sessions_counter s).

(** Partial correctness on the service object: when [m] starts from a
    service satisfying [p] and returns, the service satisfies [q]. *)
Definition ensures {A} (p : MonitoringService -> Prop) (m : M A)
    (q : MonitoringService -> Prop) : Prop :=
  forall w a w', p (svc w) -> m w = (Returned a, w') -> q (svc w').

(** Total correctness on the service object and the registry: from a world
    satisfying [p], [m] returns in a world satisfying [q]. *)
Definition total {A} (p : MonitoringService -> list Instrument -> Prop) (m : M A)
    (q : MonitoringService -> list Instrument -> Prop) : Prop :=
  forall w, p (svc w) (registry w) ->
    exists a w', m w = (Returned a, w') /\ q (svc w') (registry w').

(** The service object and the registry are the same in both worlds. *)
Definition same_core (w w' : world) : Prop :=
  svc w' = svc w /\ registry w' = registry w.

(** The calls of [_instrument_libraries]. *)
Definition is_instrumentation (e : event) : bool :=
  match e with
  | existT _ (sdk what) =>
      String.eqb what "FlaskInstrumentor().instrument_app(app)"
      || String.eqb what "RequestsInstrumentor().instrument()"
      || String.eqb what
           "SQLAlchemyInstrumentor().instrument(engine=db.engine, enable_commenter=True)"
  | existT _ (import_from module name) => String.eqb module "app" && String.eqb name "db"
  | existT _ app_context_enter => true
  | existT _ (app_context_exit _) => true
  | _ => false
  end.

(** Every call outside [_instrument_libraries] is answered in [E]. *)
Definition answers_outside_instrumentation (E : env) : Prop :=
  forall X n (c : call X), is_instrumentation (ev c) = false -> exists x, E X n c = inr x.

(** As [quiet], but every call of [_instrument_libraries] raises. *)
Definition instrumentation_broken (clk : nat -> Q) : env :=
  fun X n c =>
    if is_instrumentation (ev c)
    then inl (Exn "ImportError" "instrumentation unavailable")
    else quiet clk X n c.

(** Every character of [s] satisfies [p]. *)
Fixpoint all_chars (p : Ascii.ascii -> bool) (s : string) : bool :=
  match s with
  | EmptyString => true
  | String a s' => p a && all_chars p s'
  end.

Definition is_comma (a : Ascii.ascii) : bool := Ascii.eqb a (Ascii.ascii_of_nat 44).

(** [s] does not begin with a character that [str.strip()] removes. *)
Definition starts_clean (s : string) : bool :=
  match s with
  | EmptyString => true
  | String a _ => negb (is_py_space a)
  end.

(** The running service outside a request, as a background job sees it. *)
Definition offline : world :=
  mkWorld (svc serving) (flask_g serving) None (registry serving) (trail serving)
    (logged serving).

(** The running service inside a request that came through a proxy; the
    forwarding header starts with a no-break space (U+00A0). *)
Definition forwarded : world :=
  mkWorld (svc serving) (flask_g serving)
    (Some (mkRequest "GET" (Some "main.index")
             (Some (String (Ascii.ascii_of_nat 160) "10.1.2.3 , 10.0.0.1"))
             (Some "10.0.0.1")))
    (registry serving) (trail serving) (logged serving).

(** * Proofs *)

(** ** The monad *)

Lemma try_except_never_raises {A} (body : M A) (handler : exn -> M A) :
  (forall e, never_raises (handler e)) -> never_raises (try_except body handler).
Proof.
  intros Hh w. unfold try_except.
  destruct (body w) as [[a|e] w1]; [by eauto|]. apply Hh.
Qed.

Lemma bind_never_raises {A B} (m : M A) (k : A -> M B) :
  never_raises m -> (forall a, never_raises (k a)) -> never_raises (bind m k).
Proof.
  intros Hm Hk w. unfold bind. destruct (Hm w) as (a & w1 & ->). apply Hk.
Qed.

Lemma ret_never_raises {A} (a : A) : never_raises (ret a).
Proof. intros w. unfold ret. eauto. Qed.

Lemma logger_never_raises l msg : never_raises (logger l msg).
Proof. intros w. unfold logger. eauto. Qed.

Lemma get_self_never_raises : never_raises get_self.
Proof. intros w. unfold get_self. eauto. Qed.

Create HintDb quietly.

#[local] Hint Resolve ret_never_raises logger_never_raises get_self_never_raises : quietly.

(** ** Eviction *)

Lemma lookup_sweep timeout now (m : gmap Z Q) k :
  sweep timeout now m !! k =
    match m !! k with
    | Some v => if live timeout now (k, v) then Some v else None
    | None => None
    end.
Proof.
  unfold sweep. rewrite map_lookup_filter.
  destruct (m !! k) as [v|]; simpl; [|done].
  destruct (live timeout now (k, v)) eqn:Hl.
  - by rewrite option_guard_True.
  - rewrite option_guard_False; [done | congruence].
Qed.

Lemma for_each_delete (l : list Z) (w : world) :
  for_each l (fun uid => self <- get_self ;;
      assign (set_active_users (delete uid (active_users self)))) w
  = (Returned tt,
     with_users (foldl (fun m uid => delete uid m) (active_users (svc w)) l) w).
Proof.
  revert w. induction l as [|k l IH]; intros w; simpl.
  - unfold ret, with_users. destruct w as [[] ? ? ? ? ?]; reflexivity.
  - unfold bind at 1. unfold bind at 1. unfold get_self, assign.
    rewrite IH. reflexivity.
Qed.

Lemma lookup_foldl_delete (l : list Z) (m : gmap Z Q) k :
  foldl (fun m uid => delete uid m) m l !! k = if decide (k ∈ l) then None else m !! k.
Proof.
  revert m. induction l as [|a l IH]; intros m; simpl.
  - destruct (decide (k ∈ [])) as [Hin|_]; [by apply elem_of_nil in Hin | done].
  - rewrite IH. destruct (decide (k ∈ l)) as [Hin|Hin].
    + rewrite decide_True; [done | apply elem_of_cons; by right].
    + destruct (decide (k = a)) as [->|Hne].
      * rewrite decide_True; [apply lookup_delete_eq | apply elem_of_cons; by left].
      * rewrite decide_False; [by apply lookup_delete_ne|].
        intros [?|?]%elem_of_cons; done.
Qed.

(** The pop loop of [_track_user_activity] removes exactly the expired
    entries. *)
Lemma foldl_delete_sweep timeout now (m : gmap Z Q) :
  foldl (fun m uid => delete uid m) m
    (map fst (List.filter (fun '(uid, last_active) => Qgt_bool (now - last_active) timeout)
                (map_to_list m)))
  = sweep timeout now m.
Proof.
  apply map_eq. intros k. rewrite lookup_foldl_delete, lookup_sweep.
  destruct (m !! k) as [v|] eqn:Hk.
  - destruct (decide _) as [Hin|Hin].
    + apply list_elem_of_fmap in Hin as [[k' v'] [-> Hin]]. simpl in *.
      apply list_elem_of_In, filter_In in Hin as [Hin Hgt].
      apply list_elem_of_In, elem_of_map_to_list in Hin.
      assert (v' = v) as -> by congruence.
      unfold Qgt_bool, live in *. simpl. by destruct (Qle_bool _ _).
    + destruct (live timeout now (k, v)) eqn:Hl; [done|].
      exfalso. apply Hin. apply list_elem_of_fmap. exists (k, v). split; [done|].
      apply list_elem_of_In, filter_In. split.
      * by apply list_elem_of_In, elem_of_map_to_list.
      * unfold Qgt_bool, live in *. simpl in *. by rewrite Hl.
  - destruct (decide _); done.
Qed.

(** The dictionary comprehension of [_get_active_users_count] keeps exactly
    the live entries. *)
Lemma list_to_map_filter_sweep timeout now (m : gmap Z Q) :
  list_to_map (List.filter (fun '(uid, last_active) => Qle_bool (now - last_active) timeout)
                (map_to_list m)) = sweep timeout now m.
Proof.
  apply map_eq. intros k. rewrite lookup_sweep.
  assert (NoDup (List.filter (fun '(uid, last_active) =>
            Qle_bool (now - last_active) timeout) (map_to_list m)).*1) as Hnd.
  { generalize (NoDup_fst_map_to_list m). generalize (map_to_list m).
    induction l as [|[a b] l IH]; simpl; intros Hl; [done|].
    inversion Hl as [|? ? Hnot Hl2]; subst. destruct (Qle_bool _ _); simpl; auto.
    constructor; auto. intros Hin. apply Hnot.
    apply list_elem_of_fmap in Hin as [[a2 b2] [-> Hin]].
    apply list_elem_of_In, filter_In in Hin as [Hin _].
    apply list_elem_of_fmap. exists (a2, b2). split; [done|]. by apply list_elem_of_In. }
  destruct (m !! k) as [v|] eqn:Hk.
  - destruct (live timeout now (k, v)) eqn:Hl.
    + apply elem_of_list_to_map_1; [done|].
      apply list_elem_of_In, filter_In. split; [|done].
      by apply list_elem_of_In, elem_of_map_to_list.
    + apply not_elem_of_list_to_map_1. intros Hin.
      apply list_elem_of_fmap in Hin as [[k2 v2] [? Hin]]. simpl in *; subst k2.
      apply list_elem_of_In, filter_In in Hin as [Hin Hle].
      apply list_elem_of_In, elem_of_map_to_list in Hin.
      assert (v2 = v) as -> by congruence. unfold live in Hl; simpl in Hl. congruence.
  - apply not_elem_of_list_to_map_1. intros Hin.
    apply list_elem_of_fmap in Hin as [[k2 v2] [? Hin]]. simpl in *; subst k2.
    apply list_elem_of_In, filter_In in Hin as [Hin Hle].
    apply list_elem_of_In, elem_of_map_to_list in Hin. congruence.
Qed.

Lemma sweep_sweep timeout now (m : gmap Z Q) :
  sweep timeout now (sweep timeout now m) = sweep timeout now m.
Proof.
  apply map_eq. intros k. rewrite !lookup_sweep.
  destruct (m !! k) as [v|]; [|done].
  destruct (live timeout now (k, v)) eqn:Hl; [by rewrite Hl | done].
Qed.

(** ** Runs of the two tracker operations *)

Section Runs.
Context (E : env).

Lemma track_user_activity_run uid (w : world) t1 t2 :
  E Q (length (trail w)) time_time = inr t1 ->
  E Q (S (length (trail w))) time_time = inr t2 ->
  _track_user_activity E uid w =
    (Returned tt,
     stepped [ev time_time; ev time_time]
       (with_users (sweep (active_user_timeout (svc w)) t2
                      (<[uid := t1]> (active_users (svc w)))) w)).
Proof.
  intros H1 H2. unfold _track_user_activity, try_except.
  unfold bind at 1. unfold ext at 1. rewrite H1.
  unfold bind at 1. unfold get_self at 1.
  unfold bind at 1. unfold assign at 1. cbn [svc trail set_trail set_svc].
  unfold bind at 1. unfold ext at 1. cbn [svc trail set_trail set_svc].
  rewrite length_app. simpl length. rewrite Nat.add_1_r, H2.
  unfold bind at 1. unfold get_self at 1. cbn [svc trail set_trail set_svc].
  rewrite for_each_delete. cbn [svc trail set_trail set_svc set_active_users active_users active_user_timeout].
  rewrite foldl_delete_sweep.
  unfold stepped, with_users, set_svc, set_trail. cbn.
  rewrite <- app_assoc. reflexivity.
Qed.

Lemma get_active_users_count_run (w : world) t :
  E Q (length (trail w)) time_time = inr t ->
  _get_active_users_count E w =
    (Returned [mkObservation (inject_Z (Z.of_nat
        (size (sweep (active_user_timeout (svc w)) t (active_users (svc w))))))],
     stepped [ev time_time]
       (with_users (sweep (active_user_timeout (svc w)) t (active_users (svc w))) w)).
Proof.
  intros H1. unfold _get_active_users_count, try_except.
  unfold bind at 1. unfold ext at 1. rewrite H1.
  unfold bind at 1. unfold get_self at 1.
  unfold bind at 1. unfold assign at 1. cbn [svc trail set_trail set_svc].
  unfold bind at 1. unfold get_self at 1. cbn [svc trail set_trail set_svc].
  rewrite list_to_map_filter_sweep. reflexivity.
Qed.

End Runs.

(** ** Histories *)

Lemma last_touch_app id (tr1 tr2 : history) :
  last_touch id (tr1 ++ tr2) =
    match last_touch id tr2 with
    | Some T => Some T
    | None => last_touch id tr1
    end.
Proof.
  induction tr1 as [|[i T] tr1 IH]; simpl.
  - by destruct (last_touch id tr2).
  - rewrite IH. by destruct (last_touch id tr2).
Qed.

Lemma last_touch_snoc id (tr : history) i T :
  last_touch id (tr ++ [(i, T)]) = if decide (i = id) then Some T else last_touch id tr.
Proof. rewrite last_touch_app. simpl. by destruct (decide (i = id)). Qed.

Lemma last_touch_touched id (tr : history) T :
  last_touch id tr = Some T -> id ∈ map fst tr.
Proof.
  induction tr as [|[i T0] tr IH]; simpl; [done|].
  destruct (last_touch id tr) as [T1|].
  - intros H. apply elem_of_cons. right. by apply IH.
  - destruct (decide (i = id)) as [->|]; [|done]. intros _. apply elem_of_cons. by left.
Qed.

Lemma live_false timeout now (kv : Z * Q) :
  live timeout now kv = false -> (timeout < now - kv.2)%Q.
Proof.
  unfold live. intros H. apply Qnot_le_lt. intros Hle.
  apply Qle_bool_iff in Hle. congruence.
Qed.

Lemma live_true timeout now (kv : Z * Q) :
  live timeout now kv = true -> (now - kv.2 <= timeout)%Q.
Proof. unfold live. apply Qle_bool_iff. Qed.

Lemma tracks_touch clk q timeout tr m id :
  (forall i j, (i <= j)%nat -> (clk i <= clk j)%Q) ->
  tracks clk q timeout tr m ->
  tracks clk (S (S q)) timeout (tr ++ [(id, clk q)])
    (sweep timeout (clk (S q)) (<[id := clk q]> m)).
Proof.
  intros Hmono Htr k. specialize (Htr k).
  rewrite last_touch_snoc, lookup_sweep.
  pose proof (Hmono q (S (S q)) ltac:(lia)) as H02.
  pose proof (Hmono (S q) (S (S q)) ltac:(lia)) as H12.
  destruct (decide (id = k)) as [->|Hne].
  - rewrite lookup_insert_eq.
    destruct (live timeout (clk (S q)) (k, clk q)) eqn:Hl; [by left|].
    right. split; [done|]. apply live_false in Hl. simpl in Hl. lra.
  - rewrite lookup_insert_ne by done.
    destruct (last_touch k tr) as [T|].
    + destruct Htr as [->|[-> Hexp]].
      * destruct (live timeout (clk (S q)) (k, T)) eqn:Hl; [by left|].
        right. split; [done|]. apply live_false in Hl. simpl in Hl. lra.
      * right. split; [done|]. lra.
    + by rewrite Htr.
Qed.

Lemma tracks_count clk q timeout tr m :
  (forall i j, (i <= j)%nat -> (clk i <= clk j)%Q) ->
  tracks clk q timeout tr m ->
  tracks clk (S q) timeout tr (sweep timeout (clk q) m).
Proof.
  intros Hmono Htr k. specialize (Htr k). rewrite lookup_sweep.
  pose proof (Hmono q (S q) ltac:(lia)) as H01.
  destruct (last_touch k tr) as [T|].
  - destruct Htr as [->|[-> Hexp]].
    + destruct (live timeout (clk q) (k, T)) eqn:Hl; [by left|].
      right. split; [done|]. apply live_false in Hl. simpl in Hl. lra.
    + right. split; [done|]. lra.
  - by rewrite Htr.
Qed.

Section Touches.
Context (E : env) (clk : nat -> Q).
Hypothesis clock : forall n, E Q n time_time = inr (clk n).
Hypothesis monotone : forall i j, (i <= j)%nat -> (clk i <= clk j)%Q.

Lemma operations_run (ops : list op) : forall (w : world) (pre : history),
  tracks clk (length (trail w)) (active_user_timeout (svc w)) pre (active_users (svc w)) ->
  exists w',
    for_each ops (run_op E) w = (Returned tt, w')
    /\ length (trail w') = (length (trail w) + total_reads ops)%nat
    /\ active_user_timeout (svc w') = active_user_timeout (svc w)
    /\ tracks clk (length (trail w')) (active_user_timeout (svc w))
         (pre ++ stamps clk (length (trail w)) ops) (active_users (svc w')).
Proof.
  induction ops as [|[id|] ops IH]; intros w pre Htr.
  - exists w. simpl. rewrite app_nil_r, Nat.add_0_r. done.
  - simpl for_each. unfold bind at 1. simpl run_op.
    rewrite (track_user_activity_run E id w (clk (length (trail w)))
               (clk (S (length (trail w))))) by apply clock.
    set (w1 := stepped _ _).
    assert (length (trail w1) = S (S (length (trail w)))) as Hlen.
    { unfold w1, stepped, with_users. simpl. rewrite length_app. simpl. lia. }
    destruct (IH w1 (pre ++ [(id, clk (length (trail w)))])) as (w2 & Hrun & Hl2 & Ht2 & Htr2).
    { rewrite Hlen. unfold w1, stepped, with_users. simpl.
      by apply tracks_touch. }
    exists w2. split; [done|]. rewrite Hlen in *.
    change (active_user_timeout (svc w1)) with (active_user_timeout (svc w)) in *.
    split; [unfold total_reads in *; simpl; lia|]. split; [done|].
    simpl stamps. by rewrite <- app_assoc in Htr2.
  - simpl for_each. unfold bind at 1. simpl run_op. unfold bind at 1.
    rewrite (get_active_users_count_run E w (clk (length (trail w)))) by apply clock.
    unfold ret at 1. set (w1 := stepped _ _).
    assert (length (trail w1) = S (length (trail w))) as Hlen.
    { unfold w1, stepped, with_users. simpl. rewrite length_app. simpl. lia. }
    destruct (IH w1 pre) as (w2 & Hrun & Hl2 & Ht2 & Htr2).
    { rewrite Hlen. unfold w1, stepped, with_users. simpl.
      by apply tracks_count. }
    exists w2. split; [done|]. rewrite Hlen in *.
    change (active_user_timeout (svc w1)) with (active_user_timeout (svc w)) in *.
    split; [unfold total_reads in *; simpl; lia|]. split; [done|].
    by simpl stamps.
Qed.

End Touches.

Lemma tracks_counted clk q timeout tr m id :
  tracks clk q timeout tr m ->
  is_Some (sweep timeout (clk q) m !! id) <-> counted timeout (clk q) tr id = true.
Proof.
  intros Htr. specialize (Htr id). rewrite lookup_sweep. unfold counted.
  destruct (last_touch id tr) as [T|].
  - destruct Htr as [->|[-> Hexp]].
    + unfold live. simpl. destruct (Qle_bool (clk q - T) timeout); split; intros H;
        try done; by destruct H.
    + split; [by intros []|]. intros Hle%Qle_bool_iff. lra.
  - rewrite Htr. split; [by intros []|done].
Qed.

Lemma size_counted clk q timeout tr m :
  tracks clk q timeout tr m ->
  size (sweep timeout (clk q) m) = windowed_cardinality timeout (clk q) tr.
Proof.
  intros Htr. unfold windowed_cardinality. rewrite <- size_dom. f_equal.
  apply set_eq. intros id. rewrite elem_of_dom, elem_of_filter, elem_of_list_to_set.
  rewrite (tracks_counted _ _ _ _ _ _ Htr). split; [|by intros []].
  intros Hc. split; [done|]. unfold counted in Hc.
  destruct (last_touch id tr) as [T|] eqn:Hlt; [|done]. by eapply last_touch_touched.
Qed.

Lemma tracks_empty clk q timeout : tracks clk q timeout [] ∅.
Proof. intros id. simpl. apply lookup_empty. Qed.

Lemma sweep_sweep_mono timeout t1 t2 (m : gmap Z Q) :
  (t1 <= t2)%Q -> sweep timeout t2 (sweep timeout t1 m) = sweep timeout t2 m.
Proof.
  intros Hle. apply map_eq. intros k. rewrite !lookup_sweep.
  destruct (m !! k) as [v|]; [|done].
  destruct (live timeout t1 (k, v)) eqn:H1; [done|].
  destruct (live timeout t2 (k, v)) eqn:H2; [|done].
  apply live_false in H1. apply live_true in H2. simpl in *. lra.
Qed.

Lemma delete_sweep timeout now (m : gmap Z Q) k :
  delete k (sweep timeout now m) = sweep timeout now (delete k m).
Proof.
  apply map_eq. intros j. rewrite lookup_sweep.
  destruct (decide (k = j)) as [->|Hne].
  - by rewrite !lookup_delete_eq.
  - by rewrite !lookup_delete_ne, lookup_sweep by done.
Qed.

(** ** The active-session tracker *)

(** C1 (windowed cardinality): when the clock never runs backwards, a run of
    touches on a fresh tracker (with or without count reads in between)
    followed by a count read reports the number of distinct identities whose
    most recent touch is at most [timeout] seconds old; the surviving entries
    are exactly those identities, so an identity last touched at [T] is
    counted by a read at [T + timeout - eps] and not counted by a read at
    [T + timeout + eps]. *)
Theorem count_is_windowed_cardinality (E : env) (clk : nat -> Q) (ops : list op)
    (w : world) :
  (forall n, E Q n time_time = inr (clk n)) ->
  (forall i j, (i <= j)%nat -> (clk i <= clk j)%Q) ->
  active_users (svc w) = ∅ ->
  let timeout := active_user_timeout (svc w) in
  let tr := stamps clk (length (trail w)) ops in
  let t := clk (length (trail w) + total_reads ops)%nat in
  exists w',
    (for_each ops (run_op E) ;;; _get_active_users_count E) w
      = (Returned [mkObservation (inject_Z (Z.of_nat (windowed_cardinality timeout t tr)))],
         w')
    /\ (forall id, is_Some (active_users (svc w') !! id) <-> counted timeout t tr id = true)
    /\ (forall id T eps, last_touch id tr = Some T -> (0 < eps)%Q ->
          ((t == T + timeout - eps)%Q -> is_Some (active_users (svc w') !! id)) /\
          ((t == T + timeout + eps)%Q -> active_users (svc w') !! id = None)).
Proof.
  intros Hclk Hmono Hempty timeout tr t.
  destruct (operations_run E clk Hclk Hmono ops w []) as (w1 & Hrun & Hlen & Hto & Htr).
  { rewrite Hempty. apply tracks_empty. }
  simpl in Htr. fold tr timeout in Htr. rewrite Hlen in Htr. fold t in Htr.
  pose (m := sweep timeout t (active_users (svc w1))).
  exists (stepped [ev time_time] (with_users m w1)).
  assert (forall id, is_Some (m !! id) <-> counted timeout t tr id = true) as Hcount.
  { intros id. by apply tracks_counted. }
  split; [|split].
  - unfold bind. rewrite Hrun.
    rewrite (get_active_users_count_run E w1 t) by (rewrite Hlen; apply Hclk).
    rewrite Hto. fold timeout m. unfold m, t. by rewrite (size_counted _ _ _ _ _ Htr).
  - exact Hcount.
  - intros id T eps Hlast Heps. simpl. split.
    + intros Ht. apply Hcount. unfold counted. rewrite Hlast.
      apply Qle_bool_iff. lra.
    + intros Ht. apply eq_None_not_Some. rewrite Hcount. unfold counted.
      rewrite Hlast. intros Hle%Qle_bool_iff. lra.
Qed.

(** C3 (idempotent reads): two count reads in succession, with no touch in
    between and the clock showing the same time, return the same value and
    leave the same entries. *)
Theorem count_twice_same (E : env) (w : world) (t : Q) :
  E Q (length (trail w)) time_time = inr t ->
  E Q (S (length (trail w))) time_time = inr t ->
  exists obs w1 w2,
    _get_active_users_count E w = (Returned obs, w1)
    /\ _get_active_users_count E w1 = (Returned obs, w2)
    /\ active_users (svc w2) = active_users (svc w1).
Proof.
  intros H1 H2. do 3 eexists. split; [by apply get_active_users_count_run|].
  set (w1 := stepped _ _).
  assert (length (trail w1) = S (length (trail w))) as Hlen.
  { unfold w1, stepped, with_users. simpl. rewrite length_app. simpl. lia. }
  rewrite (get_active_users_count_run E w1 t) by (by rewrite Hlen).
  unfold w1, stepped, with_users. simpl. rewrite sweep_sweep. done.
Qed.

Section SameIdentity.
Context (E : env) (clk : nat -> Q).
Hypothesis clock : forall n, E Q n time_time = inr (clk n).
Hypothesis monotone : forall i j, (i <= j)%nat -> (clk i <= clk j)%Q.

(** After one or more touches of the same identity, the entries of the other
    identities are the swept initial ones and the identity has at most the
    entry of its last touch. *)
Lemma touches_same_run (id : Z) (n : nat) : forall (w : world),
  exists w',
    for_each (replicate (S n) id) (_track_user_activity E) w = (Returned tt, w')
    /\ length (trail w') = (length (trail w) + 2 * S n)%nat
    /\ active_user_timeout (svc w') = active_user_timeout (svc w)
    /\ delete id (active_users (svc w'))
         = sweep (active_user_timeout (svc w)) (clk (length (trail w) + 2 * n + 1)%nat)
             (delete id (active_users (svc w)))
    /\ active_users (svc w') !! id
         = (if live (active_user_timeout (svc w)) (clk (length (trail w) + 2 * n + 1)%nat)
                 (id, clk (length (trail w) + 2 * n)%nat)
            then Some (clk (length (trail w) + 2 * n)%nat) else None).
Proof.
  induction n as [|n IH]; intros w.
  - simpl for_each. unfold bind.
    rewrite (track_user_activity_run E id w (clk (length (trail w)))
               (clk (S (length (trail w))))) by apply clock.
    eexists. split; [reflexivity|].
    unfold stepped, with_users. simpl.
    rewrite length_app, !Nat.add_0_r, Nat.add_1_r. simpl.
    split; [lia|]. split; [done|]. split.
    + by rewrite delete_sweep, delete_insert_eq.
    + by rewrite lookup_sweep, lookup_insert_eq.
  - change (replicate (S (S n)) id) with (id :: replicate (S n) id).
    simpl for_each. unfold bind at 1.
    rewrite (track_user_activity_run E id w (clk (length (trail w)))
               (clk (S (length (trail w))))) by apply clock.
    set (w1 := stepped _ _).
    assert (length (trail w1) = S (S (length (trail w)))) as Hlen.
    { unfold w1, stepped, with_users. simpl. rewrite length_app. simpl. lia. }
    destruct (IH w1) as (w2 & Hrun & Hl2 & Ht2 & Hothers & Hid).
    exists w2. split; [done|]. rewrite Hlen in *.
    change (active_user_timeout (svc w1)) with (active_user_timeout (svc w)) in *.
    replace (S (S (length (trail w))) + 2 * n + 1)%nat
      with (length (trail w) + 2 * S n + 1)%nat in * by lia.
    replace (S (S (length (trail w))) + 2 * n)%nat
      with (length (trail w) + 2 * S n)%nat in * by lia.
    split; [lia|]. split; [done|]. split; [|done].
    rewrite Hothers. unfold w1, stepped, with_users. simpl.
    rewrite delete_sweep, delete_insert_eq. apply sweep_sweep_mono.
    apply monotone. lia.
Qed.

End SameIdentity.

(** C4 (dedup): a run of [n >= 1] touches of one identity followed by a count
    read taken while the last touch is still within the window adds exactly
    one to the count of the other identities' live entries; the identity has
    the single entry of its last touch, and on a fresh tracker the count
    is 1. *)
Theorem touches_of_one_identity_count_once (E : env) (clk : nat -> Q) (id : Z)
    (n : nat) (w : world) :
  (forall k, E Q k time_time = inr (clk k)) ->
  (forall i j, (i <= j)%nat -> (clk i <= clk j)%Q) ->
  (1 <= n)%nat ->
  let timeout := active_user_timeout (svc w) in
  let T := clk (length (trail w) + 2 * (n - 1))%nat in
  let t := clk (length (trail w) + 2 * n)%nat in
  (t - T <= timeout)%Q ->
  exists w',
    (for_each (replicate n id) (_track_user_activity E) ;;; _get_active_users_count E) w
      = (Returned [mkObservation (inject_Z (Z.of_nat
           (1 + size (sweep timeout t (delete id (active_users (svc w)))))))], w')
    /\ active_users (svc w') !! id = Some T
    /\ delete id (active_users (svc w')) = sweep timeout t (delete id (active_users (svc w)))
    /\ (active_users (svc w) = ∅ ->
        size (active_users (svc w')) = 1%nat).
Proof.
  intros Hclk Hmono Hn.
  destruct n as [|n]; [lia|].
  replace (S n - 1)%nat with n by lia.
  intros timeout T t Hwin.
  destruct (touches_same_run E clk Hclk Hmono id n w)
    as (w1 & Hrun & Hlen & Hto & Hothers & Hid).
  fold timeout T in Hothers, Hid.
  set (c := clk (length (trail w) + 2 * n + 1)%nat) in *.
  assert (T <= c)%Q as HTc by (apply Hmono; lia).
  assert (c <= t)%Q as Hct by (apply Hmono; lia).
  assert (live timeout c (id, T) = true) as Hlive1.
  { apply Qle_bool_iff. simpl. lra. }
  assert (live timeout t (id, T) = true) as Hlive2.
  { apply Qle_bool_iff. simpl. lra. }
  rewrite Hlive1 in Hid.
  pose (m := sweep timeout t (active_users (svc w1))).
  assert (m !! id = Some T) as Hm.
  { unfold m. by rewrite lookup_sweep, Hid, Hlive2. }
  assert (delete id m = sweep timeout t (delete id (active_users (svc w)))) as Hdel.
  { unfold m. rewrite delete_sweep, Hothers. by apply sweep_sweep_mono. }
  assert (size m = S (size (sweep timeout t (delete id (active_users (svc w)))))) as Hsize.
  { rewrite <- Hdel. rewrite <- (insert_delete_id m id T Hm) at 1.
    apply map_size_insert_None, lookup_delete_eq. }
  exists (stepped [ev time_time] (with_users m w1)).
  split; [|split; [|split]].
  - unfold bind. rewrite Hrun.
    rewrite (get_active_users_count_run E w1 t) by (rewrite Hlen; apply Hclk).
    rewrite Hto. fold timeout m. by rewrite Hsize.
  - exact Hm.
  - exact Hdel.
  - intros Hempty. simpl. rewrite Hsize, Hempty. 
    replace (delete id ∅) with (∅ : gmap Z Q) by (by rewrite delete_empty).
    unfold sweep. by rewrite map_filter_empty.
Qed.

(** ** Frame reasoning

    [keeps R m]: every run of [m] relates the world before to the world
    after by [R], whether [m] returns or raises. *)

Section Frame.
Context (E : env) (R : world -> world -> Prop).
Hypothesis R_refl : forall w, R w w.
Hypothesis R_trans : forall w1 w2 w3, R w1 w2 -> R w2 w3 -> R w1 w3.

Lemma keeps_ret {A} (a : A) : keeps R (ret a).
Proof. intros w. apply R_refl. Qed.

Lemma keeps_raise {A} (e : exn) : keeps R (@raise A e).
Proof. intros w. apply R_refl. Qed.

Lemma keeps_get_self : keeps R get_self.
Proof. intros w. apply R_refl. Qed.

Lemma keeps_get_g : keeps R get_g.
Proof. intros w. apply R_refl. Qed.

Lemma keeps_get_request : keeps R get_request.
Proof. intros w. unfold get_request. destruct (flask_request w); apply R_refl. Qed.

Lemma keeps_bind {A B} (m : M A) (k : A -> M B) :
  keeps R m -> (forall a, keeps R (k a)) -> keeps R (bind m k).
Proof.
  intros Hm Hk w. unfold bind. specialize (Hm w).
  destruct (m w) as [[a|e] w1]; simpl in *; [|done].
  eapply R_trans; [exact Hm | apply Hk].
Qed.

Lemma keeps_try_except {A} (body : M A) (handler : exn -> M A) :
  keeps R body -> (forall e, keeps R (handler e)) -> keeps R (try_except body handler).
Proof.
  intros Hm Hk w. unfold try_except. specialize (Hm w).
  destruct (body w) as [[a|e] w1]; simpl in *; [done|].
  eapply R_trans; [exact Hm | apply Hk].
Qed.

Lemma keeps_for_each {A} (xs : list A) (body : A -> M unit) :
  (forall x, keeps R (body x)) -> keeps R (for_each xs body).
Proof.
  intros Hb. induction xs as [|x xs IH]; simpl.
  - apply keeps_ret.
  - apply keeps_bind; [apply Hb | intros _; apply IH].
Qed.

Lemma keeps_with {X} (enter : call X) (leave : X -> option exn -> call bool)
    (body : X -> M unit) :
  keeps R (ext E enter) -> (forall x o, keeps R (ext E (leave x o))) ->
  (forall x, keeps R (body x)) -> keeps R (with_ E enter leave body).
Proof.
  intros He Hl Hb. unfold with_. apply keeps_bind; [done|]. intros x w.
  specialize (Hb x w). destruct (body x w) as [[[]|e] w1]; simpl in *.
  - eapply R_trans; [exact Hb|].
    apply (keeps_bind (ext E (leave x None)) (fun _ => ret tt)); [apply Hl|].
    intros _. apply keeps_ret.
  - eapply R_trans; [exact Hb|].
    apply (keeps_bind (ext E (leave x (Some e)))
             (fun suppress : bool => if suppress then ret tt else raise e)); [apply Hl|].
    intros []; [apply keeps_ret | apply keeps_raise].
Qed.

End Frame.

Create HintDb frame.

Ltac keeps_side := solve [eauto with frame].

Ltac keeps_step prim :=
  lazymatch goal with
  | |- keeps _ (bind _ _) => apply keeps_bind; [keeps_side .. | | intros ?]
  | |- keeps _ (try_except _ _) => apply keeps_try_except; [keeps_side .. | | intros ?]
  | |- keeps _ (for_each _ _) => apply keeps_for_each; [keeps_side .. | intros ?]
  | |- keeps _ (with_span _ _ _) => unfold with_span
  | |- keeps _ (set_properties _ _ _) => unfold set_properties
  | |- keeps _ (with_ _ _ _ _) =>
      apply keeps_with; [keeps_side .. | | intros ? ? | intros ?]
  | |- keeps _ (ret _) => apply keeps_ret; keeps_side
  | |- keeps _ (raise _) => apply keeps_raise; keeps_side
  | |- keeps _ get_self => apply keeps_get_self; keeps_side
  | |- keeps _ get_g => apply keeps_get_g; keeps_side
  | |- keeps _ get_request => apply keeps_get_request; keeps_side
  | |- keeps _ (match ?x with _ => _ end) => destruct x
  | |- _ => prim
  end.

(** *** The service object is left alone *)

Lemma same_svc_refl w : same_svc w w.
Proof. done. Qed.

Lemma same_svc_trans w1 w2 w3 : same_svc w1 w2 -> same_svc w2 w3 -> same_svc w1 w3.
Proof. unfold same_svc. congruence. Qed.

#[local] Hint Resolve same_svc_refl same_svc_trans : frame.

Lemma same_svc_ext E {X} (c : call X) : keeps same_svc (ext E c).
Proof. intros w. unfold ext. by destruct (E X _ c). Qed.

Lemma same_svc_logger l msg : keeps same_svc (logger l msg).
Proof. by intros w. Qed.

Lemma same_svc_put_g g : keeps same_svc (put_g g).
Proof. by intros w. Qed.

Ltac same_svc_prim :=
  first [ apply same_svc_ext | apply same_svc_logger | apply same_svc_put_g ].

Ltac same_svc_solve := repeat keeps_step same_svc_prim.

Section SameSvc.
Context (E : env).




Lemma same_svc_after_request response : keeps same_svc (after_request E response).
Proof. unfold after_request. same_svc_solve. Qed.

Lemma same_svc_handle_exception error : keeps same_svc (handle_exception E error).
Proof. unfold handle_exception. same_svc_solve. Qed.





End SameSvc.

(** ** Exceptions stay inside the telemetry code *)

Lemma never_raises_unit (m : M unit) :
  never_raises m -> forall w, exists w', m w = (Returned tt, w').
Proof. intros H w. destruct (H w) as ([] & w' & Hw). eauto. Qed.

Lemma calm_quiet clk : calm (quiet clk).
Proof. intros X n c. destruct c; simpl; eauto. Qed.

Section Isolation.
Context (E : env).

Lemma track_custom_event_never_raises name properties :
  never_raises (track_custom_event E name properties).
Proof.
  unfold track_custom_event. apply bind_never_raises; [auto with quietly|].
  intros self. destruct (_ || _); [auto with quietly|].
  apply try_except_never_raises. auto with quietly.
Qed.

Lemma track_database_query_never_raises name duration_ms success :
  never_raises (track_database_query E name duration_ms success).
Proof.
  unfold track_database_query. apply bind_never_raises; [auto with quietly|].
  intros self. destruct (enabled self), (db_query_duration self); auto with quietly.
  apply try_except_never_raises. auto with quietly.
Qed.

Lemma track_user_session_never_raises uid event_type properties :
  never_raises (track_user_session E uid event_type properties).
Proof.
  unfold track_user_session. apply bind_never_raises; [auto with quietly|].
  intros self. destruct (_ || _); [auto with quietly|].
  apply try_except_never_raises. auto with quietly.
Qed.

Lemma get_cpu_usage_never_raises : never_raises (_get_cpu_usage E).
Proof.
  apply try_except_never_raises. intros e.
  apply bind_never_raises; auto with quietly.
Qed.

Lemma get_memory_usage_never_raises : never_raises (_get_memory_usage E).
Proof.
  apply try_except_never_raises. intros e.
  apply bind_never_raises; auto with quietly.
Qed.

Lemma get_disk_usage_never_raises : never_raises (_get_disk_usage E).
Proof.
  apply try_except_never_raises. intros e.
  apply bind_never_raises; auto with quietly.
Qed.

Lemma get_active_users_count_never_raises : never_raises (_get_active_users_count E).
Proof.
  apply try_except_never_raises. intros e.
  apply bind_never_raises; auto with quietly.
Qed.

Lemma run_callback_never_raises cb : never_raises (run_callback E cb).
Proof.
  destruct cb; simpl;
    auto using get_cpu_usage_never_raises, get_memory_usage_never_raises,
      get_disk_usage_never_raises, get_active_users_count_never_raises.
Qed.

Lemma track_user_activity_never_raises uid : never_raises (_track_user_activity E uid).
Proof. apply try_except_never_raises. auto with quietly. Qed.

End Isolation.

(** C5 (disabled-mode transparency and error isolation): in every state and
    whatever the collaborators do, each tracking call returns; when the
    service is disabled it returns with the world unchanged; and
    initialisation without a credential leaves the service as disabled as it
    was and makes no external call. *)
Theorem tracking_calls_return_and_are_noops_when_disabled (E : env) (w : world)
    (name : string) (properties : option (list (string * pyvalue)))
    (query_name : string) (duration_ms : Q) (success : bool)
    (uid : Z) (event_type : string) (session_properties : option (list (string * pyvalue))) :
  (exists w', track_custom_event E name properties w = (Returned tt, w'))
  /\ (exists w', track_database_query E query_name duration_ms success w = (Returned tt, w'))
  /\ (exists w', track_user_session E uid event_type session_properties w = (Returned tt, w'))
  /\ (enabled (svc w) = false ->
        track_custom_event E name properties w = (Returned tt, w)
        /\ track_database_query E query_name duration_ms success w = (Returned tt, w)
        /\ track_user_session E uid event_type session_properties w = (Returned tt, w))
  /\ (forall credential, truthy credential = false ->
        exists w0, init_app E credential w = (Returned tt, w0)
                   /\ enabled (svc w0) = enabled (svc w)
                   /\ trail w0 = trail w).
Proof.
  split; [|split; [|split; [|split]]].
  - apply never_raises_unit, track_custom_event_never_raises.
  - apply never_raises_unit, track_database_query_never_raises.
  - apply never_raises_unit, track_user_session_never_raises.
  - intros Hoff.
    unfold track_custom_event, track_database_query, track_user_session, bind, get_self.
    rewrite Hoff. done.
  - intros credential Hno. unfold init_app, bind, assign, get_self. simpl.
    rewrite Hno. simpl. eexists. split; [reflexivity|]. done.
Qed.

Ltac calm_step E H :=
  match goal with
  | |- context [E ?X ?n ?c] =>
      let x := fresh "x" in
      let Hx := fresh "Hx" in
      destruct (H X n c) as [x Hx]; rewrite Hx; cbn [fst snd]
  end.

Lemma then_raise {A B} (m : M A) (e : exn) :
  never_raises m -> forall w, exists w', (m ;;; @raise B e) w = (Raised e, w').
Proof.
  intros Hm w. unfold bind, raise. destruct (Hm w) as (a & w1 & ->). eauto.
Qed.

(** C6 (error pass-through): in every state and whatever the collaborators
    do, the error handler ends by raising the error it was given and leaves
    the service object as it was; when the service is disabled or has no
    tracer it does nothing else; when it is enabled with a tracer and the
    span calls go through, it opens the span "error_handler", sets
    [error.type] and [error.message] on it, records the exception and
    closes the span. *)
Theorem handle_exception_reraises_the_error (E : env) (w : world) (error : exn) :
  exists w',
    handle_exception E error w = (Raised error, w')
    /\ svc w' = svc w
    /\ (enabled (svc w) && bool_decide (is_Some (tracer (svc w))) = false -> w' = w)
    /\ (enabled (svc w) = true -> is_Some (tracer (svc w)) -> calm E ->
        exists sp,
          trail w' = trail w ++
            [ev (start_as_current_span "error_handler");
             ev (span_set_attribute sp "error.type" (AStr (exc_type error)));
             ev (span_set_attribute sp "error.message" (AStr (exc_message error)));
             ev (span_record_exception sp error);
             ev (span_exit sp None)]
          /\ logged w' = logged w).
Proof.
  pose proof (same_svc_handle_exception E error w) as Hsvc. unfold same_svc in Hsvc.
  assert (exists w', handle_exception E error w = (Raised error, w')) as [w' Hrun].
  { unfold handle_exception, bind at 1. unfold get_self at 1.
    apply then_raise. destruct (_ && _); [|auto with quietly].
    apply try_except_never_raises. auto with quietly. }
  rewrite Hrun in Hsvc. exists w'. split; [done|]. split; [done|]. split.
  - intros Hoff. revert Hrun. unfold handle_exception, bind, get_self, raise, ret.
    rewrite Hoff. congruence.
  - intros Hon Htr Hcalm. revert Hrun.
    unfold handle_exception, bind at 1. unfold get_self at 1.
    rewrite Hon. rewrite bool_decide_eq_true_2 by done. cbn [andb].
    unfold bind at 1, try_except, with_span, with_, bind, ext, raise, ret.
    cbn [trail set_trail logged svc].
    repeat calm_step E Hcalm.
    intros [= <-]. cbn [trail set_trail logged svc].
    repeat match goal with x : unit |- _ => destruct x end.
    eexists. split; [|reflexivity]. rewrite <- !app_assoc. reflexivity.
Qed.

(** ** Gauge callbacks *)

Lemma flush_never_raises E gauges : never_raises (flush E gauges).
Proof.
  induction gauges as [|cb rest IH]; simpl; [auto with quietly|].
  apply bind_never_raises; [apply run_callback_never_raises|]. intros obs.
  apply bind_never_raises; [done|]. auto with quietly.
Qed.

Lemma flush_length E gauges w row w' :
  flush E gauges w = (Returned row, w') -> length row = length gauges.
Proof.
  revert w row w'. induction gauges as [|cb rest IH]; intros w row w'; simpl.
  - unfold ret. by intros [= <- <-].
  - unfold bind at 1. destruct (run_callback E cb w) as [[obs|e] w1]; [|done].
    unfold bind at 1. destruct (flush E rest w1) as [[others|e] w2] eqn:Hrest; [|done].
    unfold ret. intros [= <- <-]. simpl. f_equal. by eapply IH.
Qed.

Lemma flush_ticks_returns E gauges ticks : forall w,
  exists rows w',
    flush_ticks E gauges ticks w = (Returned rows, w')
    /\ length rows = ticks
    /\ Forall (fun row => length row = length gauges) rows.
Proof.
  induction ticks as [|n IH]; intros w; simpl.
  - exists [], w. by repeat split.
  - unfold bind at 1. destruct (flush_never_raises E gauges w) as (row & w1 & Hrow).
    rewrite Hrow. unfold bind at 1. destruct (IH w1) as (rows & w2 & -> & Hlen & Hall).
    exists (row :: rows), w2. split; [done|]. split; [simpl; by f_equal|].
    constructor; [by eapply flush_length | done].
Qed.

(** C7 (gauge-callback failure isolation): each of the four gauge callbacks
    returns in every state whatever the collaborators do; when its sampling
    call raises it yields no observation, logs one warning and leaves the
    service object alone; hence a flush that has no exception handling of
    its own still completes every tick over any list of gauges. *)
Theorem gauge_callbacks_contain_failures (E : env) (w : world) (cb : callback) :
  (exists obs w', run_callback E cb w = (Returned obs, w'))
  /\ (forall e, E Q (length (trail w)) (sampling_call cb) = inl e ->
        exists w' msg,
          run_callback E cb w = (Returned [], w')
          /\ svc w' = svc w
          /\ trail w' = trail w ++ [ev (sampling_call cb)]
          /\ logged w' = logged w ++ [(WARNING, msg)])
  /\ (forall gauges ticks,
        exists rows w',
          flush_ticks E gauges ticks w = (Returned rows, w')
          /\ length rows = ticks
          /\ Forall (fun row => length row = length gauges) rows).
Proof.
  split; [apply run_callback_never_raises|]. split; [|intros; apply flush_ticks_returns].
  intros e He. destruct cb; simpl in *;
    unfold _get_cpu_usage, _get_memory_usage, _get_disk_usage, _get_active_users_count,
      try_except, bind, ext, logger, ret;
    rewrite He; cbn; eauto 10.
Qed.

(** With the CPU sampler broken for good, three ticks over the four gauges
    of the service still export the other three gauges every time. *)
Example three_ticks_with_broken_cpu_gauge :
  fst (flush_ticks (cpu_broken (fun n => inject_Z (Z.of_nat n)))
         [cb_get_cpu_usage; cb_get_memory_usage; cb_get_disk_usage;
          cb_get_active_users_count] 3 fresh)
  = Returned
      (replicate 3
         [[]; [mkObservation (40 # 1)]; [mkObservation (70 # 1)]; [mkObservation 0]]).
Proof. vm_compute. reflexivity. Qed.

(** ** The request hooks *)

Lemma bind_returns {A B} (m : M A) (k : A -> M B) (b : B) :
  never_raises m -> (forall a w, exists w', k a w = (Returned b, w')) ->
  forall w, exists w', bind m k w = (Returned b, w').
Proof.
  intros Hm Hk w. unfold bind. destruct (Hm w) as (a & w1 & ->). apply Hk.
Qed.

(** C10 (the response is handed back): on every path, whatever the
    collaborators do, [after_request] returns the response object it was
    given and leaves the service object alone; when the service is disabled
    it does nothing at all. *)
Theorem after_request_returns_its_argument (E : env) (w : world) (response : Response) :
  exists w',
    after_request E response w = (Returned response, w')
    /\ svc w' = svc w
    /\ (enabled (svc w) = false -> w' = w).
Proof.
  pose proof (same_svc_after_request E response w) as Hsvc. unfold same_svc in Hsvc.
  assert (exists w', after_request E response w = (Returned response, w')) as [w' Hrun].
  { unfold after_request, bind at 1. unfold get_self at 1.
    destruct (negb _); [unfold ret; eauto|].
    apply bind_returns; [apply try_except_never_raises; auto with quietly|].
    intros _. apply bind_returns; [apply try_except_never_raises; auto with quietly|].
    intros _ w1. unfold ret. eauto. }
  rewrite Hrun in Hsvc. exists w'. split; [done|]. split; [done|].
  intros Hoff. revert Hrun. unfold after_request, bind, get_self, ret.
  rewrite Hoff. simpl. congruence.
Qed.

(** *** Only metric-free calls *)

Lemma no_metric_refl w : no_metric_between w w.
Proof.
  repeat split. exists []. by rewrite app_nil_r.
Qed.

Lemma no_metric_trans w1 w2 w3 :
  no_metric_between w1 w2 -> no_metric_between w2 w3 -> no_metric_between w1 w3.
Proof.
  intros (Hs1 & Hg1 & Hr1 & p1 & Ht1 & Hf1) (Hs2 & Hg2 & Hr2 & p2 & Ht2 & Hf2).
  repeat split; try congruence.
  exists (p1 ++ p2). split.
  - by rewrite Ht2, Ht1, app_assoc.
  - by rewrite List.filter_app, Hf1, Hf2.
Qed.

#[local] Hint Resolve no_metric_refl no_metric_trans : frame.

Lemma no_metric_ext E {X} (c : call X) :
  is_metric (ev c) = false -> keeps no_metric_between (ext E c).
Proof.
  intros Hc w. unfold ext.
  destruct (E X _ c); repeat split; exists [ev c]; (split; [done|]);
    cbn [List.filter]; by rewrite Hc.
Qed.

Lemma no_metric_logger l msg : keeps no_metric_between (logger l msg).
Proof.
  intros w. repeat split. exists []. by rewrite app_nil_r.
Qed.

Ltac no_metric_prim :=
  first [ apply no_metric_ext; reflexivity | apply no_metric_logger ].

(** C8 (request-end recording): with the service enabled, both instruments
    created, a start time captured on [g] and a request at hand, and with
    the clock and the two instruments not raising, [after_request] reads the
    clock once, records [(now - start) * 1000] into the request-duration
    histogram with method, route and status code, and adds 1 to the
    requests-total counter with method and status code; it records nothing
    else into any instrument and returns the response. *)
Theorem after_request_records_duration_and_count (E : env) (w : world)
    (response : Response) (h c : instrument) (start : Q) (request : Request) :
  enabled (svc w) = true ->
  http_request_duration (svc w) = Some h ->
  http_requests_total (svc w) = Some c ->
  request_start_time (flask_g w) = Some start ->
  flask_request w = Some request ->
  (forall n, exists now, E Q n time_time = inr now) ->
  (forall n v a, E unit n (histogram_record h v a) = inr tt) ->
  (forall n a, E unit n (counter_add c 1 a) = inr tt) ->
  exists w' pre now,
    after_request E response w = (Returned response, w')
    /\ E Q (length (trail w ++ pre)) time_time = inr now
    /\ trail w' = trail w ++ pre ++
         [ev time_time;
          ev (histogram_record h ((now - start) * 1000)%Q
                [("http.method", AStr (method request));
                 ("http.route", AStr (or_else (endpoint request) "unknown"));
                 ("http.status_code", AInt (status_code response))]);
          ev (counter_add c 1
                [("http.method", AStr (method request));
                 ("http.status_code", AInt (status_code response))])]
    /\ List.filter is_metric pre = [].
Proof.
  intros Hon Hh Hc Hstart Hreq Hclock Hrecord Hadd.
  unfold after_request, bind at 1. unfold get_self at 1. rewrite Hon. cbn [negb].
  unfold bind at 1.
  match goal with |- context [try_except ?b ?hd w] =>
    assert (keeps no_metric_between (try_except b hd)) as Hkeep;
    [|assert (never_raises (try_except b hd)) as Hnr;
      [apply try_except_never_raises; auto with quietly|]]
  end.
  { repeat keeps_step no_metric_prim. }
  specialize (Hkeep w). destruct (Hnr w) as ([] & w1 & Hw1). rewrite Hw1 in *.
  destruct Hkeep as (Hs & Hg & Hr & pre & Htrail & Hpre). simpl in Hs, Hg, Hr, Htrail.
  destruct (Hclock (length (trail w1))) as [now Hnow].
  exists (set_trail (trail w1 ++
            [ev time_time;
             ev (histogram_record h ((now - start) * 1000)%Q
                   [("http.method", AStr (method request));
                    ("http.route", AStr (or_else (endpoint request) "unknown"));
                    ("http.status_code", AInt (status_code response))]);
             ev (counter_add c 1
                   [("http.method", AStr (method request));
                    ("http.status_code", AInt (status_code response))])]) w1), pre, now.
  split; [|split; [|split]].
  - unfold bind at 1, try_except.
    unfold bind at 1. unfold get_g at 1. rewrite Hg, Hstart.
    unfold bind at 1. unfold ext at 1. rewrite Hnow.
    unfold bind at 1. unfold bind at 1. unfold get_self at 1.
    cbn [svc set_trail]. rewrite Hs, Hh.
    unfold bind at 1. unfold get_request at 1. cbn [flask_request set_trail].
    rewrite Hr, Hreq. unfold ext at 1. rewrite Hrecord.
    unfold bind at 1. unfold get_self at 1. cbn [svc set_trail]. rewrite Hs, Hc.
    unfold bind at 1. unfold get_request at 1. cbn [flask_request set_trail].
    rewrite Hr, Hreq. unfold ext at 1. rewrite Hadd.
    unfold ret. cbn [trail set_trail]. rewrite <- !app_assoc. reflexivity.
  - by rewrite <- Htrail.
  - cbn [trail set_trail]. by rewrite Htrail, <- app_assoc.
  - exact Hpre.
Qed.

(** *** The active-user map is left alone *)

Lemma same_users_refl w : same_users w w.
Proof. done. Qed.

Lemma same_users_trans w1 w2 w3 : same_users w1 w2 -> same_users w2 w3 -> same_users w1 w3.
Proof. unfold same_users. congruence. Qed.

#[local] Hint Resolve same_users_refl same_users_trans : frame.








Section SameUsers.
Context (E : env).



End SameUsers.


(** ** The instrument registry *)

Lemma register_duplicate (i : Instrument) (w : world) :
  inst_name i ∈ map inst_name (registry w) ->
  register i w = (Raised (Exn "DuplicateInstrument" (inst_name i)), w).
Proof. intros Hin. unfold register. by rewrite bool_decide_eq_true_2. Qed.

Lemma register_fresh (i : Instrument) (w : world) :
  inst_name i ∉ map inst_name (registry w) ->
  register i w = (Returned (inst_name i), set_registry (registry w ++ [i]) w).
Proof. intros Hin. unfold register. by rewrite bool_decide_eq_false_2. Qed.

Lemma register_keeps_names_unique (i : Instrument) (w : world) :
  NoDup (map inst_name (registry w)) ->
  NoDup (map inst_name (registry (snd (register i w)))).
Proof.
  intros Hnd. unfold register. destruct (bool_decide _) eqn:Hdec; [done|].
  apply bool_decide_eq_false in Hdec. simpl. rewrite map_app. simpl.
  apply NoDup_app. split; [done|]. split.
  - intros x Hx [->|[]%elem_of_nil]%elem_of_cons. done.
  - apply NoDup_singleton.
Qed.

Ltac in_service_names :=
  unfold service_instrument_names; rewrite !elem_of_cons;
  repeat first [ left; reflexivity | right ].

Lemma registry_after_register i f w :
  registry (after_register i f w) = registry w ++ [i].
Proof. reflexivity. Qed.

Lemma svc_after_register i f w : svc (after_register i f w) = f (svc w).
Proof. reflexivity. Qed.

Lemma register_assign_fresh {B} (i : Instrument)
    (setter : option instrument -> MonitoringService -> MonitoringService)
    (k : M B) (w : world) :
  inst_name i ∉ map inst_name (registry w) ->
  bind (register i) (fun h => bind (assign (setter (Some h))) (fun _ => k)) w
  = k (after_register i (setter (Some (inst_name i))) w).
Proof. intros Hin. unfold bind at 1. by rewrite register_fresh. Qed.

Lemma register_assign_fresh_last (i : Instrument)
    (setter : option instrument -> MonitoringService -> MonitoringService) (w : world) :
  inst_name i ∉ map inst_name (registry w) ->
  bind (register i) (fun h => assign (setter (Some h))) w
  = (Returned tt, after_register i (setter (Some (inst_name i))) w).
Proof. intros Hin. unfold bind at 1. by rewrite register_fresh. Qed.

#[local] Opaque after_register.

Ltac fresh_name Hfresh :=
  rewrite ?registry_after_register, ?map_app;
  let Hin := fresh "Hin" in
  intros Hin;
  repeat match type of Hin with
         | _ ∈ _ ++ _ => apply elem_of_app in Hin as [Hin|Hin]
         end;
  [ refine (Hfresh _ _ Hin); in_service_names
  | cbn [map inst_name] in Hin; apply list_elem_of_singleton in Hin; discriminate Hin .. ].

Lemma create_metrics_fresh (w : world) :
  meter (svc w) = Some tt ->
  (forall n, n ∈ service_instrument_names -> n ∉ map inst_name (registry w)) ->
  exists w1,
    _create_metrics w = (Returned tt, w1)
    /\ map inst_name (registry w1) = map inst_name (registry w) ++ service_instrument_names
    /\ meter (svc w1) = Some tt
    /\ http_request_duration (svc w1) = Some "http.server.request.duration"
    /\ http_requests_total (svc w1) = Some "http.server.requests.total".
Proof.
  intros Hmeter Hfresh.
  unfold _create_metrics, register_histogram, register_counter,
    register_observable_gauge.
  unfold bind at 1. unfold get_self at 1. rewrite Hmeter.
  do 7 (rewrite register_assign_fresh by fresh_name Hfresh).
  rewrite register_assign_fresh_last by fresh_name Hfresh.
  eexists. split; [reflexivity|].
  rewrite !registry_after_register, !map_app, !svc_after_register.
  cbn [map inst_name]. rewrite <- !app_assoc. cbn [app].
  split; [done|]. split; [exact Hmeter|]. split; reflexivity.
Qed.

(** C9 (duplicate-instrument rejection, against the registry of the
    specification): registering a counter, histogram or observable gauge
    under a registered name fails with DuplicateInstrument and leaves the
    world, and so every registered instrument, as it was; registration keeps
    names unique; and [_create_metrics], which has no handler of its own,
    registers its eight names once and passes the error on when it is run
    again. *)
Theorem duplicate_instrument_is_rejected (w : world) :
  (forall name description unit callbacks,
      name ∈ map inst_name (registry w) ->
      register_counter name description unit w
        = (Raised (Exn "DuplicateInstrument" name), w)
      /\ register_histogram name description unit w
        = (Raised (Exn "DuplicateInstrument" name), w)
      /\ register_observable_gauge name description unit callbacks w
        = (Raised (Exn "DuplicateInstrument" name), w))
  /\ (NoDup (map inst_name (registry w)) ->
      forall i, NoDup (map inst_name (registry (snd (register i w)))))
  /\ (meter (svc w) = Some tt ->
      (forall n, n ∈ service_instrument_names -> n ∉ map inst_name (registry w)) ->
      exists w1,
        _create_metrics w = (Returned tt, w1)
        /\ map inst_name (registry w1)
             = map inst_name (registry w) ++ service_instrument_names
        /\ _create_metrics w1
             = (Raised (Exn "DuplicateInstrument" "http.server.request.duration"), w1)).
Proof.
  split; [|split].
  - intros name description unit callbacks Hin.
    unfold register_counter, register_histogram, register_observable_gauge.
    repeat split; by apply register_duplicate.
  - intros Hnd i. by apply register_keeps_names_unique.
  - intros Hmeter Hfresh.
    destruct (create_metrics_fresh w Hmeter Hfresh) as (w1 & Hrun & Hnames & Hm1 & _).
    exists w1. split; [done|]. split; [done|].
    unfold _create_metrics, bind at 1. unfold get_self at 1. rewrite Hm1.
    unfold register_histogram, bind at 1. rewrite register_duplicate; [done|].
    rewrite Hnames. apply elem_of_app. right. in_service_names.
Qed.

(** ** Instances on concrete runs *)

Lemma ticking_monotone (step : Q) :
  (0 <= step)%Q -> forall i j, (i <= j)%nat -> (ticking step i <= ticking step j)%Q.
Proof.
  intros Hstep i j Hij. unfold ticking. apply Qmult_le_compat_r; [|done].
  rewrite <- Zle_Qle. lia.
Qed.

(** The client address taken from a forwarding header. *)
Example first_forwarded_address :
  strip (before_comma " 10.1.2.3 , 172.16.0.1") = "10.1.2.3".
Proof. reflexivity. Qed.

Example str_of_values :
  map str [PyStr "pro"; PyInt (-3); PyBool true; PyNone] = ["pro"; "-3"; "True"; "None"].
Proof. reflexivity. Qed.

(** A successful [init_app] enables the service and registers the eight
    instruments. *)
Example init_app_enables :
  enabled (svc serving) = true
  /\ tracer (svc serving) = Some tt
  /\ map inst_name (registry serving) = service_instrument_names.
Proof. by vm_compute. Qed.

(** [init_app] with a credential but failing collaborators logs the error
    and leaves the service disabled. *)
Example init_app_failure_disables :
  fst (init_app hostile (Some "InstrumentationKey=k") fresh) = Returned tt
  /\ enabled (svc (snd (init_app hostile (Some "InstrumentationKey=k") fresh))) = false.
Proof. by vm_compute. Qed.

(** The hook of an authenticated request touches the tracker and keeps the
    identity on [g]. *)
Example before_request_touches :
  let w := snd (before_request (quiet (ticking 1)) serving) in
  user_id (flask_g w) = Some "42"
  /\ is_Some (active_users (svc w) !! 42%Z).
Proof. split; [by vm_compute | eexists; by vm_compute]. Qed.

(** Touches of 1, 2 and 1 at 0 s, 500 s and 1000 s, a read at 1500 s, a
    touch of 3 at 1750 s and the read at 2250 s: only identity 3 is within
    900 s; identity 3 is read 400 s before its entry expires, identity 1
    350 s after. *)
Lemma count_is_windowed_cardinality_witness :
  exists w',
    (for_each [touch 1; touch 2; touch 1; count; touch 3] (run_op (quiet (ticking 250))) ;;;
     _get_active_users_count (quiet (ticking 250))) fresh
    = (Returned [mkObservation 1], w')
    /\ is_Some (active_users (svc w') !! 3%Z)
    /\ active_users (svc w') !! 1%Z = None.
Proof.
  destruct (count_is_windowed_cardinality (quiet (ticking 250)) (ticking 250)
              [touch 1; touch 2; touch 1; count; touch 3] fresh)
    as (w' & Hrun & _ & Hedge).
  - reflexivity.
  - apply ticking_monotone. by vm_compute.
  - reflexivity.
  - exists w'. split; [exact Hrun|]. split.
    + apply (Hedge 3%Z (ticking 250 7) 400%Q); by vm_compute.
    + apply (Hedge 1%Z (ticking 250 4) 350%Q); by vm_compute.
Defined.


(** Two reads at 1200 s of the tracker holding 100 s, 500 s and 1000 s. *)
Lemma count_twice_same_witness :
  exists obs w1 w2,
    _get_active_users_count (quiet (fun _ => 1200%Q)) crowded = (Returned obs, w1)
    /\ _get_active_users_count (quiet (fun _ => 1200%Q)) w1 = (Returned obs, w2)
    /\ active_users (svc w2) = active_users (svc w1).
Proof.
  apply (count_twice_same (quiet (fun _ => 1200%Q)) crowded 1200%Q); reflexivity.
Defined.

(** The scenario of the specification: one hundred touches of one identity,
    then a count. *)
Lemma touches_of_one_identity_count_once_witness :
  exists w',
    (for_each (replicate 100 1%Z) (_track_user_activity (quiet (ticking 1))) ;;;
     _get_active_users_count (quiet (ticking 1))) fresh
    = (Returned [mkObservation (inject_Z (Z.of_nat
         (1 + size (sweep (active_user_timeout (svc fresh)) (ticking 1 (0 + 2 * 100))
                      (delete 1%Z (active_users (svc fresh)))))))], w')
    /\ size (active_users (svc w')) = 1%nat.
Proof.
  destruct (touches_of_one_identity_count_once (quiet (ticking 1)) (ticking 1) 1%Z
              100 fresh) as (w' & Hrun & _ & _ & Hone).
  - reflexivity.
  - apply ticking_monotone. by vm_compute.
  - lia.
  - by vm_compute.
  - exists w'. split; [exact Hrun | apply Hone; reflexivity].
Defined.

(** The disabled service in an environment where every collaborator
    raises. *)
Lemma tracking_calls_return_and_are_noops_when_disabled_witness :
  track_custom_event hostile "report.generated" (Some [("pages", PyInt 3)]) fresh
    = (Returned tt, fresh)
  /\ track_database_query hostile "load_documents" (25 # 2) true fresh = (Returned tt, fresh)
  /\ track_user_session hostile 42 "login" None fresh = (Returned tt, fresh).
Proof.
  apply (tracking_calls_return_and_are_noops_when_disabled hostile fresh
           "report.generated" (Some [("pages", PyInt 3)]) "load_documents" (25 # 2) true
           42%Z "login" None).
  reflexivity.
Defined.

(** The enabled service with collaborators that answer. *)
Lemma handle_exception_reraises_the_error_witness :
  exists w',
    handle_exception (quiet (ticking 1)) (Exn "ValueError" "bad input") serving
      = (Raised (Exn "ValueError" "bad input"), w')
    /\ exists sp,
         trail w' = trail serving ++
           [ev (start_as_current_span "error_handler");
            ev (span_set_attribute sp "error.type" (AStr "ValueError"));
            ev (span_set_attribute sp "error.message" (AStr "bad input"));
            ev (span_record_exception sp (Exn "ValueError" "bad input"));
            ev (span_exit sp None)]
         /\ logged w' = logged serving.
Proof.
  destruct (handle_exception_reraises_the_error (quiet (ticking 1)) serving
              (Exn "ValueError" "bad input")) as (w' & Hrun & _ & _ & Hon).
  exists w'. split; [exact Hrun|]. apply Hon.
  - by vm_compute.
  - exists tt. by vm_compute.
  - apply calm_quiet.
Defined.

(** The CPU gauge when psutil raises. *)
Lemma gauge_callbacks_contain_failures_witness :
  exists w' msg,
    run_callback hostile cb_get_cpu_usage fresh = (Returned [], w')
    /\ svc w' = svc fresh
    /\ trail w' = trail fresh ++ [ev (sampling_call cb_get_cpu_usage)]
    /\ logged w' = logged fresh ++ [(WARNING, msg)].
Proof.
  destruct (gauge_callbacks_contain_failures hostile fresh cb_get_cpu_usage)
    as (_ & Hfail & _).
  apply (Hfail (Exn "RuntimeError" "collaborator failure")). reflexivity.
Defined.

(** A GET request that started at 5 s, answered with status 200. *)
Lemma after_request_records_duration_and_count_witness :
  exists w' pre now,
    after_request (quiet (ticking 1)) (mkResponse 200 "ok") serving
      = (Returned (mkResponse 200 "ok"), w')
    /\ quiet (ticking 1) Q (length (trail serving ++ pre)) time_time = inr now
    /\ trail w' = trail serving ++ pre ++
         [ev time_time;
          ev (histogram_record "http.server.request.duration" ((now - 5) * 1000)%Q
                [("http.method", AStr "GET");
                 ("http.route", AStr "main.index");
                 ("http.status_code", AInt 200)]);
          ev (counter_add "http.server.requests.total" 1
                [("http.method", AStr "GET");
                 ("http.status_code", AInt 200)])]
    /\ List.filter is_metric pre = [].
Proof.
  apply (after_request_records_duration_and_count (quiet (ticking 1)) serving
           (mkResponse 200 "ok") "http.server.request.duration"
           "http.server.requests.total" 5%Q
           (mkRequest "GET" (Some "main.index") None (Some "10.0.0.1"))).
  - by vm_compute.
  - by vm_compute.
  - by vm_compute.
  - reflexivity.
  - reflexivity.
  - intros n. eexists. reflexivity.
  - reflexivity.
  - reflexivity.
Defined.

(** Registering the requests counter a second time on the initialised
    service. *)
Lemma duplicate_instrument_is_rejected_witness :
  register_counter "http.server.requests.total" "Total number of HTTP requests" "1" serving
    = (Raised (Exn "DuplicateInstrument" "http.server.requests.total"), serving).
Proof.
  destruct (duplicate_instrument_is_rejected serving) as (Hdup & _).
  destruct (Hdup "http.server.requests.total" "Total number of HTTP requests" "1" [])
    as (Hcounter & _).
  - apply list_elem_of_In. vm_compute. right. left. reflexivity.
  - exact Hcounter.
Defined.

(** The enabled service with every collaborator raising. *)
Lemma after_request_returns_its_argument_witness :
  exists w',
    after_request hostile (mkResponse 404 "not found") serving
      = (Returned (mkResponse 404 "not found"), w').
Proof.
  destruct (after_request_returns_its_argument hostile serving (mkResponse 404 "not found"))
    as (w' & Hrun & _).
  exists w'. exact Hrun.
Defined.

(** * Further properties of the code *)

(** ** The tracker beyond its window *)

Lemma sweep_subseteq timeout now (m : gmap Z Q) : sweep timeout now m ⊆ m.
Proof. apply map_filter_subseteq. Qed.

(** X1: without a touch in between, a second count read never reports more
    than the first, whatever the two clock readings are: it filters the
    entries the first read kept. *)
Theorem second_read_never_counts_more (E : env) (w : world) (t1 t2 : Q) :
  E Q (length (trail w)) time_time = inr t1 ->
  E Q (S (length (trail w))) time_time = inr t2 ->
  exists n1 n2 w1 w2,
    _get_active_users_count E w
      = (Returned [mkObservation (inject_Z (Z.of_nat n1))], w1)
    /\ _get_active_users_count E w1
      = (Returned [mkObservation (inject_Z (Z.of_nat n2))], w2)
    /\ (n2 <= n1)%nat
    /\ active_users (svc w2) ⊆ active_users (svc w1)
    /\ active_users (svc w1) ⊆ active_users (svc w).
Proof.
  intros H1 H2.
  rewrite (get_active_users_count_run E w t1 H1).
  set (m1 := sweep _ t1 _). set (w1 := stepped _ _).
  assert (length (trail w1) = S (length (trail w))) as Hlen.
  { unfold w1, stepped, with_users. simpl. rewrite length_app. simpl. lia. }
  rewrite <- Hlen in H2.
  exists (size m1), (size (sweep (active_user_timeout (svc w1)) t2 (active_users (svc w1)))).
  eexists _, _. split; [reflexivity|].
  split; [exact (get_active_users_count_run E w1 t2 H2)|].
  split; [apply map_subseteq_size, sweep_subseteq|].
  split; apply sweep_subseteq.
Qed.

(** X2: a touch adds at most one entry to the map, and none when the
    identity is already there. *)
Theorem touch_adds_at_most_one_entry (E : env) (w : world) (uid : Z) (t1 t2 : Q) :
  E Q (length (trail w)) time_time = inr t1 ->
  E Q (S (length (trail w))) time_time = inr t2 ->
  exists w',
    _track_user_activity E uid w = (Returned tt, w')
    /\ (size (active_users (svc w')) <= S (size (active_users (svc w))))%nat
    /\ (is_Some (active_users (svc w) !! uid) ->
        (size (active_users (svc w')) <= size (active_users (svc w)))%nat)
    /\ (forall k, k <> uid -> is_Some (active_users (svc w') !! k) ->
        active_users (svc w') !! k = active_users (svc w) !! k).
Proof.
  intros H1 H2. eexists. split; [by apply track_user_activity_run|].
  cbn [stepped with_users svc set_trail set_svc set_active_users active_users].
  set (m := active_users (svc w)). set (timeout := active_user_timeout (svc w)).
  assert (size (sweep timeout t2 (<[uid:=t1]> m)) <= size (<[uid:=t1]> m))%nat as Hle.
  { apply map_subseteq_size, sweep_subseteq. }
  rewrite map_size_insert in Hle. split; [|split].
  - destruct (m !! uid); simpl in Hle; lia.
  - intros [v Hv]. rewrite Hv in Hle. simpl in Hle. lia.
  - intros k Hne [v Hv]. rewrite Hv. rewrite lookup_sweep in Hv.
    rewrite lookup_insert_ne in Hv by done.
    destruct (m !! k) as [v0|]; [|done]. by destruct (live _ _ _); simplify_eq.
Qed.

(** X3: a clock failure inside a touch is logged and swallowed.  When the
    first reading fails nothing is stored; when the reading for the sweep
    fails the touch is stored and nothing is evicted. *)
Theorem touch_survives_a_failing_clock (E : env) (w : world) (uid : Z) :
  (forall e,
      E Q (length (trail w)) time_time = inl e ->
      exists w',
        _track_user_activity E uid w = (Returned tt, w')
        /\ svc w' = svc w
        /\ logged w' = logged w ++
             [(WARNING, "[MONITORING] Error tracking user activity: " +:+ exc_message e)])
  /\ (forall t1 e,
      E Q (length (trail w)) time_time = inr t1 ->
      E Q (S (length (trail w))) time_time = inl e ->
      exists w',
        _track_user_activity E uid w = (Returned tt, w')
        /\ active_users (svc w') = <[uid := t1]> (active_users (svc w))
        /\ logged w' = logged w ++
             [(WARNING, "[MONITORING] Error tracking user activity: " +:+ exc_message e)]).
Proof.
  split.
  - intros e He. unfold _track_user_activity, try_except, bind, ext. rewrite He.
    eexists. split; [reflexivity|]. done.
  - intros t1 e H1 H2. unfold _track_user_activity, try_except.
    unfold bind at 1. unfold ext at 1. rewrite H1.
    unfold bind at 1. unfold get_self at 1.
    unfold bind at 1. unfold assign at 1. cbn [svc trail set_trail set_svc].
    unfold bind at 1. unfold ext at 1. cbn [svc trail set_trail set_svc].
    rewrite length_app. simpl length. rewrite Nat.add_1_r, H2.
    eexists. split; [reflexivity|]. done.
Qed.

(** ** The background thread *)

(** X4: while the service is enabled the monitoring loop sleeps once per
    round for [monitor_interval] seconds, whether or not a sleep raises, and
    never changes the service object; a disabled service makes it return at
    once without sleeping. *)
Theorem monitor_loop_keeps_sleeping (E : env) (rounds : nat) (w : world) :
  exists w',
    monitor_system_health E rounds w = (Returned tt, w')
    /\ svc w' = svc w
    /\ trail w' = trail w ++
         (if enabled (svc w)
          then replicate rounds (ev (time_sleep (monitor_interval (svc w))))
          else []).
Proof.
  revert w. induction rounds as [|n IH]; intros w.
  - exists w. simpl. unfold ret.
    split; [done|]. split; [done|]. destruct (enabled (svc w)); by rewrite app_nil_r.
  - simpl. unfold bind at 1. unfold get_self at 1.
    destruct (enabled (svc w)) eqn:Hen.
    + unfold bind at 1.
      assert (exists w1, monitor_system_health_round E w = (Returned tt, w1)
                /\ svc w1 = svc w
                /\ trail w1 = trail w ++ [ev (time_sleep (monitor_interval (svc w)))])
        as (w1 & -> & Hs1 & Ht1).
      { unfold monitor_system_health_round, try_except, bind, get_self, ext, logger.
        destruct (E unit _ _) as [e|[]]; eexists; by split. }
      destruct (IH w1) as (w2 & -> & Hs2 & Ht2).
      exists w2. split; [done|]. split; [congruence|].
      rewrite Ht2, Ht1, Hs1, Hen, <- app_assoc. done.
    + exists w. unfold ret. by rewrite app_nil_r.
Qed.

(** ** Runs in a calm environment *)

Lemma trail_stepped cs w : trail (stepped cs w) = trail w ++ cs.
Proof. reflexivity. Qed.

Lemma svc_stepped cs w : svc (stepped cs w) = svc w.
Proof. reflexivity. Qed.

Lemma logged_stepped cs w : logged (stepped cs w) = logged w.
Proof. reflexivity. Qed.

Lemma flask_request_stepped cs w : flask_request (stepped cs w) = flask_request w.
Proof. reflexivity. Qed.

Lemma flask_g_stepped cs w : flask_g (stepped cs w) = flask_g w.
Proof. reflexivity. Qed.

Lemma stepped_stepped cs1 cs2 w : stepped cs2 (stepped cs1 w) = stepped (cs1 ++ cs2) w.
Proof. unfold stepped, set_trail. cbn. by rewrite app_assoc. Qed.

Lemma stepped_nil w : stepped [] w = w.
Proof. destruct w. unfold stepped, set_trail. cbn. by rewrite app_nil_r. Qed.

Lemma bind_run {A B} (m : M A) (k : A -> M B) w a w1 :
  m w = (Returned a, w1) -> bind m k w = k a w1.
Proof. intros H. unfold bind. by rewrite H. Qed.

Lemma try_except_run {A} (body : M A) handler w a w1 :
  body w = (Returned a, w1) -> try_except body handler w = (Returned a, w1).
Proof. intros H. unfold try_except. by rewrite H. Qed.

Section Calm.
Context (E : env).
Hypothesis Hcalm : calm E.

Lemma ext_run {X} (c : call X) w :
  exists x, E X (length (trail w)) c = inr x
            /\ ext E c w = (Returned x, stepped [ev c] w).
Proof.
  destruct (Hcalm X (length (trail w)) c) as [x Hx]. exists x. split; [done|].
  unfold ext. by rewrite Hx.
Qed.

Lemma ext_unit_run (c : call unit) w : ext E c w = (Returned tt, stepped [ev c] w).
Proof. destruct (ext_run c w) as ([] & _ & H). done. Qed.

Lemma with_span_run name (body : span -> M unit) w :
  exists sp,
    E span (length (trail w)) (start_as_current_span name) = inr sp
    /\ forall w2,
         body sp (stepped [ev (start_as_current_span name)] w) = (Returned tt, w2) ->
         with_span E name body w = (Returned tt, stepped [ev (span_exit sp None)] w2).
Proof.
  destruct (ext_run (start_as_current_span name) w) as (sp & Hsp & Hrun).
  exists sp. split; [done|]. intros w2 Hbody.
  unfold with_span, with_. rewrite (bind_run _ _ _ _ _ Hrun). rewrite Hbody.
  destruct (ext_run (span_exit sp None) w2) as (b & _ & Hexit).
  by rewrite (bind_run _ _ _ _ _ Hexit).
Qed.

Lemma set_properties_run sp properties w :
  set_properties E sp properties w
  = (Returned tt,
     stepped (map (fun kv => ev (span_set_attribute sp kv.1 (AStr (str kv.2))))
                (default [] properties)) w).
Proof.
  assert (forall items w,
            for_each items
              (fun '(key, value) => ext E (span_set_attribute sp key (AStr (str value)))) w
            = (Returned tt,
               stepped (map (fun kv => ev (span_set_attribute sp kv.1 (AStr (str kv.2))))
                          items) w)) as Hloop.
  { clear w. induction items as [|[k v] items IH]; intros w; simpl.
    - unfold ret. by rewrite stepped_nil.
    - rewrite (bind_run _ _ _ _ _ (ext_unit_run _ w)), IH. by rewrite stepped_stepped. }
  unfold set_properties. destruct properties as [[|kv items]|]; simpl default.
  - unfold ret. by rewrite stepped_nil.
  - exact (Hloop (kv :: items) w).
  - unfold ret. by rewrite stepped_nil.
Qed.

End Calm.

(** ** Custom events *)

(** X5: with the service enabled and collaborators that answer,
    [track_custom_event] opens one span under the event's name, sets every
    property on it in the order of the dictionary, rendered by [str], closes
    the span, logs nothing and leaves the service object alone. *)
Theorem custom_event_carries_every_property (E : env) (w : world) (name : string)
    (properties : option (list (string * pyvalue))) :
  enabled (svc w) = true ->
  is_Some (tracer (svc w)) ->
  calm E ->
  exists sp w',
    track_custom_event E name properties w = (Returned tt, w')
    /\ svc w' = svc w
    /\ logged w' = logged w
    /\ trail w' = trail w ++
         ev (start_as_current_span name)
         :: map (fun kv => ev (span_set_attribute sp kv.1 (AStr (str kv.2))))
              (default [] properties)
         ++ [ev (span_exit sp None)].
Proof.
  intros Hon Htr Hcalm.
  destruct (with_span_run E Hcalm name (fun sp => set_properties E sp properties) w)
    as (sp & _ & Hwith).
  specialize (Hwith _ (set_properties_run E Hcalm sp properties _)).
  exists sp. eexists. split.
  - unfold track_custom_event, bind at 1. unfold get_self at 1.
    rewrite Hon, (bool_decide_eq_true_2 _ Htr). cbn [negb orb].
    exact (try_except_run _ _ _ _ _ Hwith).
  - rewrite !stepped_stepped. split; [done|]. split; [done|].
    rewrite trail_stepped. done.
Qed.

(** ** Session events *)

#[local] Opaque stepped.

Section SessionRun.
Context (E : env).
Hypothesis Hcalm : calm E.

Lemma client_ip_run sp w :
  try_except
    (request <- get_request ;;
     let user_ip :=
       match x_forwarded_for request with
       | Some v => Some v
       | None => remote_addr request
       end in
     match user_ip with
     | Some ip =>
         if truthy user_ip
         then ext E (span_set_attribute sp "client.ip" (AStr (strip (before_comma ip))))
         else ret tt
     | None => ret tt
     end)
    (fun _ => ret tt) w
  = (Returned tt, stepped (client_ip_events sp (flask_request w)) w).
Proof.
  unfold try_except, bind, get_request, client_ip_events.
  destruct (flask_request w) as [r|]; [|unfold ret; by rewrite stepped_nil].
  destruct (x_forwarded_for r) as [ip|]; [|destruct (remote_addr r) as [ip|]].
  - destruct (truthy (Some ip)).
    + by rewrite ext_unit_run.
    + unfold ret. by rewrite stepped_nil.
  - destruct (truthy (Some ip)).
    + by rewrite ext_unit_run.
    + unfold ret. by rewrite stepped_nil.
  - unfold ret. by rewrite stepped_nil.
Qed.

Lemma track_user_session_run (w : world) (uid : Z) (event_type : string)
    (properties : option (list (string * pyvalue))) (c : instrument) :
  enabled (svc w) = true ->
  is_Some (tracer (svc w)) ->
  user_sessions_counter (svc w) = Some c ->
  exists cs sp,
    track_user_session E uid event_type properties w
    = (Returned tt,
       stepped (user_session_calls cs sp (flask_request w) uid event_type properties
                ++ [ev (counter_add c 1 [("session.event", AStr event_type)])]) w).
Proof.
  intros Hon Htr Hc.
  unfold track_user_session, bind at 1. unfold get_self at 1.
  rewrite Hon, (bool_decide_eq_true_2 _ Htr). cbn [negb orb].
  destruct (ext_run E Hcalm get_current_span
              (stepped [ev (import_from "opentelemetry" "trace")]
                 (stepped [ev (import_from "flask" "request")] w))) as (cs & _ & Hcs).
  exists cs.
  set (w3 := stepped [ev get_current_span] _) in Hcs.
  assert (exists w4,
            match cs with
            | Some c0 =>
                ext E (span_set_attribute c0 "enduser.id" (AStr (pretty uid))) ;;;
                ext E (span_set_attribute c0 "user_AuthenticatedId" (AStr (pretty uid)))
            | None => ret tt
            end w3 = (Returned tt, w4)
            /\ w4 = stepped
                      match cs with
                      | Some c0 =>
                          [ev (span_set_attribute c0 "enduser.id" (AStr (pretty uid)));
                           ev (span_set_attribute c0 "user_AuthenticatedId"
                                 (AStr (pretty uid)))]
                      | None => []
                      end w3) as (w4 & Hcur & Hw4).
  { destruct cs as [c0|].
    - eexists. split; [|reflexivity].
      rewrite (bind_run _ _ _ _ _ (ext_unit_run E Hcalm _ w3)), ext_unit_run by done.
      by rewrite stepped_stepped.
    - exists w3. unfold ret. by rewrite stepped_nil. }
  match goal with
  | |- context [with_span E ?n ?b] =>
      destruct (with_span_run E Hcalm n b w4) as (sp & _ & Hwith)
  end.
  exists sp.
  set (w5 := stepped [ev (start_as_current_span ("user_session_" +:+ event_type))] w4)
    in Hwith.
  specialize (Hwith
    (stepped
       ([ev (span_set_attribute sp "user.id" (AStr (pretty uid)));
         ev (span_set_attribute sp "enduser.id" (AStr (pretty uid)));
         ev (span_set_attribute sp "user_AuthenticatedId" (AStr (pretty uid)));
         ev (span_set_attribute sp "session.event" (AStr event_type))]
        ++ client_ip_events sp (flask_request w)
        ++ map (fun kv => ev (span_set_attribute sp kv.1 (AStr (str kv.2))))
             (default [] properties)) w5)).
  lapply Hwith; [clear Hwith; intros Hwith|].
  - apply try_except_run.
    rewrite (bind_run _ _ _ _ _ (ext_unit_run E Hcalm _ w)).
    rewrite (bind_run _ _ _ _ _ (ext_unit_run E Hcalm _ _)).
    rewrite (bind_run _ _ _ _ _ Hcs).
    rewrite (bind_run _ _ _ _ _ Hcur).
    rewrite (bind_run _ _ _ _ _ Hwith).
    unfold bind at 1. unfold get_self at 1.
    assert (forall cs0 w0, user_sessions_counter (svc (stepped cs0 w0))
                           = user_sessions_counter (svc w0)) as Hsame by done.
    rewrite Hsame. unfold w5. rewrite Hsame, Hw4, Hsame. unfold w3. rewrite !Hsame, Hc.
    rewrite ext_unit_run by done. rewrite !stepped_stepped.
    unfold user_session_calls. rewrite <- ?app_assoc. reflexivity.
  - rewrite (bind_run _ _ _ _ _ (ext_unit_run E Hcalm _ _)).
    rewrite (bind_run _ _ _ _ _ (ext_unit_run E Hcalm _ _)).
    rewrite (bind_run _ _ _ _ _ (ext_unit_run E Hcalm _ _)).
    rewrite (bind_run _ _ _ _ _ (ext_unit_run E Hcalm _ _)).
    rewrite (bind_run _ _ _ _ _ (client_ip_run sp _)).
    rewrite set_properties_run by done.
    assert (forall cs0 w0, flask_request (stepped cs0 w0) = flask_request w0) as Hsame
      by done.
    rewrite !Hsame. unfold w5. rewrite Hsame, Hw4, Hsame. unfold w3. rewrite !Hsame.
    rewrite !stepped_stepped. rewrite <- ?app_assoc. reflexivity.
Qed.

End SessionRun.

Lemma user_session_calls_no_metric cs sp r uid event_type properties :
  List.filter is_metric (user_session_calls cs sp r uid event_type properties) = [].
Proof.
  assert (forall items : list (string * pyvalue),
            List.filter is_metric
              (map (fun kv => ev (span_set_attribute sp kv.1 (AStr (str kv.2)))) items) = [])
    as Hprops.
  { induction items as [|kv items IH]; [done|]. simpl. exact IH. }
  unfold user_session_calls, client_ip_events. rewrite !List.filter_app, Hprops.
  destruct cs, r as [[? ? [[|? ?]|] [[|? ?]|]]|]; reflexivity.
Qed.

(** X6: with the service enabled, a session counter created and
    collaborators that answer, [track_user_session] makes exactly the calls
    of [user_session_calls] and then one increment of the session counter by
    1 under [session.event]; none of the earlier calls records a metric,
    nothing is logged and the service object stays as it is.  Outside a
    request context the [client.ip] attribute is left out and the rest is
    done all the same. *)
Theorem user_session_is_counted_once (E : env) (w : world) (uid : Z)
    (event_type : string) (properties : option (list (string * pyvalue)))
    (c : instrument) :
  enabled (svc w) = true ->
  is_Some (tracer (svc w)) ->
  user_sessions_counter (svc w) = Some c ->
  calm E ->
  exists cs sp w',
    track_user_session E uid event_type properties w = (Returned tt, w')
    /\ svc w' = svc w
    /\ logged w' = logged w
    /\ trail w' = trail w
         ++ user_session_calls cs sp (flask_request w) uid event_type properties
         ++ [ev (counter_add c 1 [("session.event", AStr event_type)])]
    /\ List.filter is_metric
         (user_session_calls cs sp (flask_request w) uid event_type properties) = []
    /\ (flask_request w = None -> client_ip_events sp (flask_request w) = []).
Proof.
  intros Hon Htr Hc Hcalm.
  destruct (track_user_session_run E Hcalm w uid event_type properties c Hon Htr Hc)
    as (cs & sp & Hrun).
  exists cs, sp. eexists. split; [exact Hrun|].
  rewrite svc_stepped, logged_stepped, trail_stepped.
  repeat split; try done.
  - apply user_session_calls_no_metric.
  - by intros ->.
Qed.

(** ** The request hooks together *)

Lemma same_wiring_refl w : same_wiring w w.
Proof. done. Qed.

Lemma same_wiring_trans w1 w2 w3 :
  same_wiring w1 w2 -> same_wiring w2 w3 -> same_wiring w1 w3.
Proof. unfold same_wiring. congruence. Qed.

Lemma request_untouched_refl w : request_untouched w w.
Proof. repeat split. exists []. by rewrite app_nil_r. Qed.

Lemma request_untouched_trans w1 w2 w3 :
  request_untouched w1 w2 -> request_untouched w2 w3 -> request_untouched w1 w3.
Proof.
  intros (Hs1 & Hr1 & Hg1 & p1 & Ht1 & Hf1) (Hs2 & Hr2 & Hg2 & p2 & Ht2 & Hf2).
  split; [by eapply same_wiring_trans|]. repeat split; try congruence.
  exists (p1 ++ p2). split.
  - by rewrite Ht2, Ht1, app_assoc.
  - by rewrite List.filter_app, Hf1, Hf2.
Qed.

#[local] Hint Resolve request_untouched_refl request_untouched_trans : frame.

Lemma request_untouched_ext E {X} (c : call X) :
  is_metric (ev c) = false -> keeps request_untouched (ext E c).
Proof.
  intros Hc w. unfold ext.
  destruct (E X _ c); repeat split; exists [ev c]; (split; [done|]);
    cbn [List.filter]; by rewrite Hc.
Qed.

Lemma request_untouched_logger l msg : keeps request_untouched (logger l msg).
Proof. intros w. repeat split. exists []. by rewrite app_nil_r. Qed.

Lemma request_untouched_assign_users m :
  keeps request_untouched (assign (set_active_users m)).
Proof. intros w. repeat split. exists []. by rewrite app_nil_r. Qed.

Lemma request_untouched_put_user u (k : M unit) :
  keeps request_untouched k ->
  keeps request_untouched (g <- get_g ;; put_g (mkG (request_start_time g) u) ;;; k).
Proof.
  intros Hk w. unfold bind, get_g, put_g.
  eapply request_untouched_trans; [|apply Hk].
  repeat split. exists []. by rewrite app_nil_r.
Qed.

Ltac request_untouched_prim :=
  first [ apply request_untouched_ext; reflexivity
        | apply request_untouched_logger
        | apply request_untouched_assign_users
        | progress cbv zeta ].

Ltac request_untouched_solve :=
  repeat first [ apply request_untouched_put_user
               | progress unfold _track_user_activity
               | keeps_step request_untouched_prim ].

(** What [before_request] does once its first clock read has answered. *)
Lemma before_request_after_clock (E : env) (w : world) (now : Q) :
  E Q (length (trail w)) time_time = inr now ->
  exists w',
    before_request E w = (Returned tt, w')
    /\ request_untouched
         (set_flask_g (mkG (Some now) (user_id (flask_g w))) (stepped [ev time_time] w)) w'.
Proof.
  intros Hnow. unfold before_request.
  unfold bind at 1. unfold ext at 1. rewrite Hnow.
  unfold bind at 1. unfold get_g at 1. unfold bind at 1. unfold put_g at 1.
  match goal with
  | |- context [try_except ?b ?h ?w0] =>
      assert (keeps request_untouched (try_except b h)) as Hkeep
        by request_untouched_solve;
      assert (never_raises (try_except b h)) as Hnr
        by (apply try_except_never_raises; auto with quietly);
      specialize (Hkeep w0); destruct (Hnr w0) as ([] & w' & Hw'); rewrite Hw' in *
  end.
  exists w'. split; [done|]. exact Hkeep.
Qed.

(** X7: [before_request] stores the reading of its first clock read as the
    request's start time whatever happens afterwards, records no metric and
    changes nothing of the service but the active-user map; the only
    exception it lets through is a failure of that first read, and then [g]
    is left as it was. *)
Theorem before_request_captures_the_start_time (E : env) (w : world) :
  (forall now,
      E Q (length (trail w)) time_time = inr now ->
      exists w' pre,
        before_request E w = (Returned tt, w')
        /\ request_start_time (flask_g w') = Some now
        /\ same_wiring w w'
        /\ trail w' = trail w ++ ev time_time :: pre
        /\ List.filter is_metric pre = [])
  /\ (forall e,
      E Q (length (trail w)) time_time = inl e ->
      exists w',
        before_request E w = (Raised e, w')
        /\ flask_g w' = flask_g w /\ svc w' = svc w).
Proof.
  split.
  - intros now Hnow.
    destruct (before_request_after_clock E w now Hnow)
      as (w' & Hrun & Hwire & _ & Hstart & pre & Htrail & Hpre).
    exists w', pre. split; [done|]. split; [done|]. split; [done|].
    split; [|done]. rewrite Htrail. cbn [trail set_flask_g].
    by rewrite trail_stepped, <- app_assoc.
  - intros e He. unfold before_request, bind, ext. rewrite He.
    eexists. split; [reflexivity|]. done.
Qed.

(** X8: [before_request] touches the tracker and sets [g.user_id] only when
    flask_login reports an authenticated user: in an environment where it
    never does, and whatever else succeeds or fails, the service object and
    [g.user_id] stay as they were. *)
Theorem before_request_without_user_touches_nothing (E : env) (w : world) :
  (forall n id, E (option Z) n current_user_id <> inr (Some id)) ->
  svc (snd (before_request E w)) = svc w
  /\ user_id (flask_g (snd (before_request E w))) = user_id (flask_g w).
Proof.
  intros Hnone. unfold before_request, bind, ext, try_except, get_g, put_g, logger, ret.
  cbn [trail set_trail set_flask_g flask_g svc].
  destruct (E Q _ time_time) as [e|now]; [done|].
  cbn [trail set_trail set_flask_g flask_g svc].
  destruct (E unit _ (import_from "flask_login" "current_user")) as [e|[]]; [done|].
  cbn [trail set_trail set_flask_g flask_g svc].
  destruct (E unit _ (import_from "opentelemetry" "trace")) as [e|[]]; [done|].
  cbn [trail set_trail set_flask_g flask_g svc].
  destruct (E (option Z) _ current_user_id) as [e|[id|]] eqn:Hcu; [done| |done].
  by apply Hnone in Hcu.
Qed.

Lemma try_except_bind_run {A B} (m : M A) (k : A -> M B) handler w a w1 :
  m w = (Returned a, w1) ->
  try_except (bind m k) handler w = try_except (k a) handler w1.
Proof. intros H. unfold try_except, bind. by rewrite H. Qed.

Lemma ext_at E {X} (c : call X) w x :
  E X (length (trail w)) c = inr x -> ext E c w = (Returned x, stepped [ev c] w).
Proof. intros H. unfold ext. by rewrite H. Qed.

Lemma same_svc_and_g_refl w : same_svc_and_g w w.
Proof. done. Qed.

Lemma same_svc_and_g_trans w1 w2 w3 :
  same_svc_and_g w1 w2 -> same_svc_and_g w2 w3 -> same_svc_and_g w1 w3.
Proof. intros [? ?] [? ?]. split; congruence. Qed.

#[local] Hint Resolve same_svc_and_g_refl same_svc_and_g_trans : frame.

Lemma same_svc_and_g_ext E {X} (c : call X) : keeps same_svc_and_g (ext E c).
Proof. intros w. unfold ext. by destruct (E X _ c). Qed.

Lemma same_svc_and_g_logger l msg : keeps same_svc_and_g (logger l msg).
Proof. by intros w. Qed.

Ltac same_svc_and_g_prim :=
  first [ apply same_svc_and_g_ext | apply same_svc_and_g_logger ].

(** X9: an authenticated request makes its user active.  When flask_login
    reports user [id], the touch stores the clock reading [t1] and sweeps at
    [t2] no more than [timeout] later, then [before_request] leaves [id]
    in the map with [t1] and [str(id)] on [g], whatever the span calls do;
    and a count read that follows within the timeout of [t1] counts it. *)
Theorem authenticated_request_makes_the_user_active (E : env) (w : world) (id : Z)
    (now t1 t2 : Q) :
  E Q (length (trail w)) time_time = inr now ->
  E unit (length (trail w) + 1)%nat (import_from "flask_login" "current_user") = inr tt ->
  E unit (length (trail w) + 2)%nat (import_from "opentelemetry" "trace") = inr tt ->
  E (option Z) (length (trail w) + 3)%nat current_user_id = inr (Some id) ->
  E Q (length (trail w) + 4)%nat time_time = inr t1 ->
  E Q (length (trail w) + 5)%nat time_time = inr t2 ->
  (t2 - t1 <= active_user_timeout (svc w))%Q ->
  exists w1,
    before_request E w = (Returned tt, w1)
    /\ flask_g w1 = mkG (Some now) (Some (pretty id))
    /\ active_users (svc w1) !! id = Some t1
    /\ (forall t,
          E Q (length (trail w1)) time_time = inr t ->
          (t - t1 <= active_user_timeout (svc w))%Q ->
          exists n w2,
            _get_active_users_count E w1
              = (Returned [mkObservation (inject_Z (Z.of_nat n))], w2)
            /\ (1 <= n)%nat
            /\ active_users (svc w2) !! id = Some t1).
Proof.
  intros Hnow Himp1 Himp2 Hcu Ht1 Ht2 Hwin.
  unfold before_request.
  rewrite (bind_run _ _ _ _ _ (ext_at E time_time w now Hnow)).
  unfold bind at 1. unfold get_g at 1. unfold bind at 1. unfold put_g at 1.
  rewrite flask_g_stepped.
  set (w0 := set_flask_g _ _).
  assert (forall cs w0, length (trail (stepped cs w0)) = (length (trail w0) + length cs)%nat)
    as Hlen by (intros; by rewrite trail_stepped, length_app).
  assert (length (trail w0) = (length (trail w) + 1)%nat) as H0 by apply Hlen.
  rewrite (try_except_bind_run _ _ _ _ _ _ (ext_at E _ w0 tt ltac:(by rewrite H0))).
  set (wa := stepped _ w0).
  assert (length (trail wa) = (length (trail w) + 2)%nat) as Ha
    by (unfold wa; rewrite Hlen, H0; simpl; lia).
  rewrite (try_except_bind_run _ _ _ _ _ _ (ext_at E _ wa tt ltac:(by rewrite Ha))).
  set (wb := stepped _ wa).
  assert (length (trail wb) = (length (trail w) + 3)%nat) as Hb
    by (unfold wb; rewrite Hlen, Ha; simpl; lia).
  rewrite (try_except_bind_run _ _ _ _ _ _ (ext_at E _ wb _ ltac:(by rewrite Hb))).
  set (wc := stepped _ wb).
  assert (length (trail wc) = (length (trail w) + 4)%nat) as Hc
    by (unfold wc; rewrite Hlen, Hb; simpl; lia).
  rewrite (try_except_bind_run _ _ _ _ _ _
             (track_user_activity_run E id wc t1 t2
                ltac:(by rewrite Hc)
                ltac:(by rewrite Hc; replace (S (length (trail w) + 4))
                                       with (length (trail w) + 5)%nat by lia))).
  assert (svc wc = svc w) as Hsvc by done.
  assert (flask_g wc = mkG (Some now) (user_id (flask_g w))) as Hg by done.
  rewrite Hsvc. set (m := sweep _ t2 _). set (wd := stepped _ (with_users m wc)).
  rewrite (try_except_bind_run _ _ _ wd (flask_g wd) wd) by done.
  rewrite (try_except_bind_run _ _ _ wd tt
             (set_flask_g (mkG (request_start_time (flask_g wd)) (Some (pretty id))) wd))
    by done.
  set (we := set_flask_g _ wd).
  match goal with
  | |- context [try_except ?b ?h we] =>
      assert (keeps same_svc_and_g (try_except b h)) as Hkeep
        by (repeat keeps_step same_svc_and_g_prim);
      assert (never_raises (try_except b h)) as Hnr
        by (apply try_except_never_raises; auto with quietly);
      specialize (Hkeep we); destruct (Hnr we) as ([] & w1 & Hw1); rewrite Hw1 in *
  end.
  destruct Hkeep as [Hs1 Hg1]. cbn [snd] in Hs1, Hg1.
  assert (svc we = set_active_users m (svc w)) as Hse.
  { unfold we, wd. cbn [svc set_flask_g]. rewrite svc_stepped. unfold with_users.
    cbn [svc set_svc]. by rewrite Hsvc. }
  assert (m !! id = Some t1) as Hm.
  { unfold m. rewrite lookup_sweep, lookup_insert_eq.
    replace (live (active_user_timeout (svc w)) t2 (id, t1)) with true; [done|].
    symmetry. by apply Qle_bool_iff. }
  exists w1. split; [done|]. split; [|split].
  - rewrite Hg1. unfold we, wd. cbn [flask_g set_flask_g]. rewrite flask_g_stepped.
    unfold with_users. cbn [flask_g set_svc]. by rewrite Hg.
  - by rewrite Hs1, Hse.
  - intros t Ht Hlive.
    rewrite (get_active_users_count_run E w1 t Ht). rewrite Hs1, Hse.
    cbn [active_users active_user_timeout set_active_users].
    set (m2 := sweep _ t m).
    assert (m2 !! id = Some t1) as Hm2.
    { unfold m2. rewrite lookup_sweep, Hm.
      replace (live (active_user_timeout (svc w)) t (id, t1)) with true; [done|].
      symmetry. by apply Qle_bool_iff. }
    exists (size m2). eexists. split; [reflexivity|]. split.
    + destruct (size m2) eqn:Hsz; [|lia].
      apply map_size_empty_inv in Hsz. rewrite Hsz in Hm2. done.
    + rewrite svc_stepped. unfold with_users. cbn [svc set_svc active_users set_active_users].
      exact Hm2.
Qed.

(** What [after_request] records for a request whose start time is on [g]. *)
Lemma after_request_from_start (E : env) (w : world) (response : Response)
    (h c : instrument) (start : Q) (request : Request) :
  enabled (svc w) = true ->
  http_request_duration (svc w) = Some h ->
  http_requests_total (svc w) = Some c ->
  request_start_time (flask_g w) = Some start ->
  flask_request w = Some request ->
  (forall n, exists now, E Q n time_time = inr now) ->
  (forall n v a, E unit n (histogram_record h v a) = inr tt) ->
  (forall n a, E unit n (counter_add c 1 a) = inr tt) ->
  exists w' pre now,
    after_request E response w = (Returned response, w')
    /\ E Q (length (trail w ++ pre)) time_time = inr now
    /\ trail w' = trail w ++ pre ++
         [ev time_time;
          ev (histogram_record h ((now - start) * 1000)%Q
                [("http.method", AStr (method request));
                 ("http.route", AStr (or_else (endpoint request) "unknown"));
                 ("http.status_code", AInt (status_code response))]);
          ev (counter_add c 1
                [("http.method", AStr (method request));
                 ("http.status_code", AInt (status_code response))])]
    /\ List.filter is_metric pre = [].
Proof.
  intros Hon Hh Hc Hstart Hreq Hclock Hrecord Hadd.
  unfold after_request, bind at 1. unfold get_self at 1. rewrite Hon. cbn [negb].
  unfold bind at 1.
  match goal with |- context [try_except ?b ?hd w] =>
    assert (keeps no_metric_between (try_except b hd)) as Hkeep
      by (repeat keeps_step no_metric_prim);
    assert (never_raises (try_except b hd)) as Hnr
      by (apply try_except_never_raises; auto with quietly)
  end.
  specialize (Hkeep w). destruct (Hnr w) as ([] & w1 & Hw1). rewrite Hw1 in *.
  destruct Hkeep as (Hs & Hg & Hr & pre & Htrail & Hpre). cbn [snd] in Hs, Hg, Hr, Htrail.
  destruct (Hclock (length (trail w1))) as [now Hnow].
  eexists _, pre, now. split; [|split; [|split]].
  - unfold bind at 1, try_except.
    unfold bind at 1. unfold get_g at 1. rewrite Hg, Hstart.
    rewrite (bind_run _ _ _ _ _ (ext_at E _ w1 now Hnow)).
    unfold bind at 1. unfold bind at 1. unfold get_self at 1.
    rewrite svc_stepped, Hs, Hh.
    unfold bind at 1. unfold get_request at 1. rewrite flask_request_stepped, Hr, Hreq.
    rewrite (ext_at E _ _ tt (Hrecord _ _ _)).
    unfold bind at 1. unfold get_self at 1. rewrite !svc_stepped, Hs, Hc.
    unfold bind at 1. unfold get_request at 1. rewrite !flask_request_stepped, Hr, Hreq.
    rewrite (ext_at E _ _ tt (Hadd _ _)). unfold ret. reflexivity.
  - by rewrite <- Htrail.
  - rewrite !trail_stepped, Htrail, <- !app_assoc. reflexivity.
  - exact Hpre.
Qed.

(** X10: the duration a request reports spans both hooks.  With the service
    enabled, both instruments created and a request at hand, and with the
    clock and the two instruments not raising, [before_request] followed by
    [after_request] records into the histogram 1000 times the difference
    between the clock reading [after_request] takes and the first reading of
    [before_request], adds 1 to the counter, records no other metric and
    returns the response, whatever the other collaborators do. *)
Theorem request_duration_spans_both_hooks (E : env) (w : world) (response : Response)
    (h c : instrument) (request : Request) :
  enabled (svc w) = true ->
  http_request_duration (svc w) = Some h ->
  http_requests_total (svc w) = Some c ->
  flask_request w = Some request ->
  (forall n, exists now, E Q n time_time = inr now) ->
  (forall n v a, E unit n (histogram_record h v a) = inr tt) ->
  (forall n a, E unit n (counter_add c 1 a) = inr tt) ->
  exists w' t0 t1 between,
    (before_request E ;;; after_request E response) w = (Returned response, w')
    /\ E Q (length (trail w)) time_time = inr t0
    /\ E Q (length (trail w ++ ev time_time :: between)) time_time = inr t1
    /\ trail w' = trail w ++ ev time_time :: between ++
         [ev time_time;
          ev (histogram_record h ((t1 - t0) * 1000)%Q
                [("http.method", AStr (method request));
                 ("http.route", AStr (or_else (endpoint request) "unknown"));
                 ("http.status_code", AInt (status_code response))]);
          ev (counter_add c 1
                [("http.method", AStr (method request));
                 ("http.status_code", AInt (status_code response))])]
    /\ List.filter is_metric between = [].
Proof.
  intros Hon Hh Hc Hreq Hclock Hrecord Hadd.
  destruct (Hclock (length (trail w))) as [t0 Ht0].
  destruct (before_request_after_clock E w t0 Ht0)
    as (w1 & Hrun1 & Hwire & Hr1 & Hstart1 & pre1 & Htrail1 & Hpre1).
  cbn [flask_request flask_g set_flask_g request_start_time trail] in Hr1, Hstart1, Htrail1.
  rewrite flask_request_stepped in Hr1. rewrite trail_stepped in Htrail1.
  assert (set_active_users ∅ (svc w1) = set_active_users ∅ (svc w)) as Hw by exact Hwire.
  destruct (after_request_from_start E w1 response h c t0 request)
    as (w' & pre2 & t1 & Hrun2 & Ht1 & Htrail2 & Hpre2); try done.
  - rewrite <- Hon. exact (f_equal enabled Hw).
  - rewrite <- Hh. exact (f_equal http_request_duration Hw).
  - rewrite <- Hc. exact (f_equal http_requests_total Hw).
  - congruence.
  - exists w', t0, t1, (pre1 ++ pre2). split; [|split; [|split; [|split]]].
    + by rewrite (bind_run _ _ _ _ _ Hrun1).
    + done.
    + rewrite <- Ht1, Htrail1. f_equal. f_equal. rewrite <- !app_assoc. done.
    + rewrite Htrail2, Htrail1, <- !app_assoc. done.
    + by rewrite List.filter_app, Hpre1, Hpre2.
Qed.

(** ** Initialisation *)

Section Ensures.

Lemma ensures_bind {A B} p q r (m : M A) (k : A -> M B) :
  ensures p m q -> (forall a, ensures q (k a) r) -> ensures p (bind m k) r.
Proof.
  intros Hm Hk w b w' Hp. unfold bind.
  destruct (m w) as [[a|e] w1] eqn:Hmw; [|done].
  intros Hrun. eapply Hk; [|exact Hrun]. by eapply Hm.
Qed.

Lemma ensures_frame {A} p (m : M A) : keeps same_svc m -> ensures p m p.
Proof.
  intros Hm w a w' Hp Hrun. specialize (Hm w). rewrite Hrun in Hm.
  unfold same_svc in Hm. simpl in Hm. by rewrite Hm.
Qed.

Lemma ensures_assign p f :
  ensures p (assign f) (fun s' => exists s, p s /\ s' = f s).
Proof.
  intros w a w' Hp Hrun. unfold assign in Hrun. injection Hrun as _ <-.
  simpl. eauto.
Qed.

Lemma ensures_assign_some {V} p (setter : option V -> MonitoringService -> MonitoringService)
    (v : V) :
  ensures p (assign (setter (Some v))) (fun s' => exists s v0, p s /\ s' = setter (Some v0) s).
Proof.
  intros w a w' Hp Hrun. unfold assign in Hrun. injection Hrun as _ <-.
  simpl. eauto.
Qed.

Lemma ensures_weaken {A} (p p' q q' : MonitoringService -> Prop) (m : M A) :
  ensures p' m q' -> (forall s, p s -> p' s) -> (forall s, q' s -> q s) -> ensures p m q.
Proof. intros Hm Hp Hq w a w' H Hrun. apply Hq. eapply Hm; [|exact Hrun]. by apply Hp. Qed.

Lemma ensures_post {A} (p q q' : MonitoringService -> Prop) (m : M A) :
  ensures p m q' -> (forall s, q' s -> q s) -> ensures p m q.
Proof. intros Hm Hq. by eapply ensures_weaken. Qed.

Lemma ensures_try_except {A} p q (body : M A) handler :
  ensures p body q -> (forall e, ensures (fun _ => True) (handler e) q) ->
  ensures p (try_except body handler) q.
Proof.
  intros Hb Hh w a w' Hp. unfold try_except.
  destruct (body w) as [[a1|e] w1] eqn:Hbw.
  - intros [= <- <-]. by eapply Hb.
  - intros Hrun. by eapply Hh.
Qed.

Lemma ensures_get_self {B} p q (k : MonitoringService -> M B) :
  (forall s0, ensures (fun s => s = s0 /\ p s) (k s0) q) -> ensures p (bind get_self k) q.
Proof. intros Hk w b w' Hp. unfold bind, get_self. intros Hrun. by eapply Hk. Qed.

Lemma ensures_vacuous {A} (p q : MonitoringService -> Prop) (m : M A) :
  (forall s, p s -> False) -> ensures p m q.
Proof. intros Hp w a w' H. by apply Hp in H. Qed.

End Ensures.

Lemma same_svc_register i : keeps same_svc (register i).
Proof. intros w. unfold register. by destruct (bool_decide _). Qed.

Ltac same_svc_wide :=
  repeat first
    [ progress unfold _instrument_libraries, _register_flask_hooks, register_counter,
        register_histogram, register_observable_gauge
    | apply same_svc_register
    | keeps_step same_svc_prim ].

Ltac ensures_chain :=
  lazymatch goal with
  | |- ensures _ (bind _ _) _ => eapply ensures_bind; [ensures_chain | intros ?; ensures_chain]
  | |- ensures _ (assign _) _ => first [apply ensures_assign_some | apply ensures_assign]
  | |- ensures _ _ _ => apply ensures_frame; same_svc_wide
  end.

Section InitApp.
Context (E : env).

Lemma ensures_get_tracer :
  ensures (fun _ => True)
    (try_except
       (ext E (sdk "trace.get_tracer(__name__)") ;;;
        assign (set_tracer (Some tt)) ;;;
        logger INFO "[MONITORING] Reusing existing tracer from logging service")
       (fun te =>
          ext E (sdk "TracerProvider(resource=resource)") ;;;
          ext E (sdk "AzureMonitorTraceExporter(connection_string)") ;;;
          ext E (import_from "opentelemetry.sdk.trace.export" "BatchSpanProcessor") ;;;
          ext E (sdk "BatchSpanProcessor(trace_exporter)") ;;;
          ext E (sdk "trace_provider.add_span_processor") ;;;
          ext E (sdk "trace.set_tracer_provider(trace_provider)") ;;;
          ext E (sdk "trace.get_tracer(__name__)") ;;;
          assign (set_tracer (Some tt)) ;;;
          logger INFO "[MONITORING] Created new tracer with custom processors"))
    (fun s => is_Some (tracer s)).
Proof.
  apply ensures_try_except; [|intros te];
    (eapply ensures_post; [ensures_chain|]);
    intros s (s0 & v & _ & ->); by eexists.
Qed.

Lemma ensures_create_metrics :
  ensures (fun s => is_Some (tracer s) /\ meter s = Some tt) _create_metrics
    (fun s => is_Some (tracer s) /\ is_Some (meter s)
              /\ is_Some (http_request_duration s) /\ is_Some (http_requests_total s)
              /\ is_Some (cpu_usage_gauge s) /\ is_Some (memory_usage_gauge s)
              /\ is_Some (disk_usage_gauge s) /\ is_Some (db_query_duration s)
              /\ is_Some (active_users_gauge s) /\ is_Some (user_sessions_counter s)).
Proof.
  unfold _create_metrics. apply ensures_get_self. intros s0.
  destruct (meter s0) as [[]|] eqn:Hmeter.
  - eapply ensures_post; [ensures_chain|].
    intros s H. cbv beta in H.
    repeat match type of H with
           | exists _ _, _ /\ _ = _ =>
               let s1 := fresh "s" in
               let v := fresh "v" in
               destruct H as (s1 & v & H & ->); cbv beta in H
           end.
    destruct H as (-> & Htr & Hm). cbn. rewrite Hm. repeat split; try done; by eexists.
  - apply ensures_vacuous. intros s (-> & _ & Hm). congruence.
Qed.

End InitApp.

Lemma bind_assign {B} f (k : unit -> M B) w :
  bind (assign f) k w = k tt (set_svc (f (svc w)) w).
Proof. reflexivity. Qed.

Lemma init_app_outcome (E : env) credential w a w' :
  truthy credential = true ->
  init_app E credential w = (Returned a, w') ->
  (enabled (svc w') = true /\ wired (svc w'))
  \/ (enabled (svc w') = false
      /\ exists e, last (logged w')
                   = Some (ERROR, "[MONITORING] Failed to initialize: " +:+ exc_message e)).
Proof.
  intros Hcred. unfold init_app.
  rewrite !bind_assign. unfold bind at 1. unfold get_self at 1.
  cbn [svc set_svc connection_string set_connection_string]. rewrite Hcred. cbn [negb].
  set (w0 := set_svc _ _).
  match goal with
  | |- try_except ?b ?h w0 = _ -> _ =>
      assert (ensures (fun _ => True) b (fun s => enabled s = true /\ wired s)) as Hbody
  end.
  { unfold _start_system_monitoring.
    eapply ensures_bind; [apply ensures_frame; same_svc_wide | intros _].
    eapply ensures_bind; [apply ensures_frame; same_svc_wide | intros _].
    eapply ensures_bind; [apply (ensures_get_tracer E) | intros _].
    do 7 (eapply ensures_bind; [apply ensures_frame; same_svc_wide | intros _]).
    eapply ensures_bind;
      [eapply (ensures_post _ (fun s => is_Some (tracer s) /\ meter s = Some tt));
       [apply ensures_assign_some|] | intros _].
    { intros s (s1 & [] & Htr & ->). by split. }
    eapply ensures_bind; [apply ensures_create_metrics | intros _].
    eapply ensures_post; [ensures_chain|].
    intros s H. cbv beta in H.
    destruct H as (s1 & H & ->). cbv beta in H.
    destruct H as (s2 & [] & H & ->).
    destruct H as (Htr & Hm & Hrest). cbn.
    split; [done|]. split; [done|]. split; [done|]. split; [by eexists|]. done. }
  unfold try_except.
  match goal with
  | |- match ?run with _ => _ end = _ -> _ => destruct run as [[a1|e] w1] eqn:Hrun
  end.
  - intros [= <- <-]. left. by eapply (Hbody w0 a1 w1 I Hrun).
  - unfold bind, logger, assign. cbn. intros [= <- <-]. cbn. right.
    split; [done|]. exists e. apply last_snoc.
Qed.

Lemma init_app_never_raises (E : env) credential : never_raises (init_app E credential).
Proof.
  unfold init_app. intros w. rewrite !bind_assign. unfold bind at 1. unfold get_self at 1.
  match goal with |- context [if ?b then _ else _] => destruct b end.
  - apply logger_never_raises.
  - apply try_except_never_raises. intros e.
    apply bind_never_raises; [apply logger_never_raises|]. intros _ w1.
    unfold assign. eauto.
Qed.

(** X11: [init_app] never raises, whatever the collaborators do.  Given a
    credential it ends in one of two states: enabled, and then the tracer,
    the meter, the monitoring thread and all eight instruments are in
    place; or disabled, and then the last log record is the error
    "Failed to initialize". *)
Theorem init_app_enables_only_a_wired_service (E : env) (credential : option string)
    (w : world) :
  exists w',
    init_app E credential w = (Returned tt, w')
    /\ (truthy credential = true ->
        (enabled (svc w') = true /\ wired (svc w'))
        \/ (enabled (svc w') = false
            /\ exists e, last (logged w')
                         = Some (ERROR, "[MONITORING] Failed to initialize: " +:+ exc_message e))).
Proof.
  destruct (init_app_never_raises E credential w) as ([] & w' & Hrun).
  exists w'. split; [done|]. intros Hcred. by eapply init_app_outcome.
Qed.

Lemma same_core_refl w : same_core w w.
Proof. done. Qed.

Lemma same_core_trans w1 w2 w3 : same_core w1 w2 -> same_core w2 w3 -> same_core w1 w3.
Proof. intros [? ?] [? ?]. split; congruence. Qed.

#[local] Hint Resolve same_core_refl same_core_trans : frame.

Lemma same_core_ext E {X} (c : call X) : keeps same_core (ext E c).
Proof. intros w. unfold ext. by destruct (E X _ c). Qed.

Lemma same_core_logger l msg : keeps same_core (logger l msg).
Proof. by intros w. Qed.

Ltac same_core_prim := first [ apply same_core_ext | apply same_core_logger ].

Lemma instrument_libraries_never_raises E : never_raises (_instrument_libraries E).
Proof. apply try_except_never_raises. auto with quietly. Qed.

Lemma same_core_instrument_libraries E : keeps same_core (_instrument_libraries E).
Proof. unfold _instrument_libraries. repeat keeps_step same_core_prim. Qed.

Section Total.
Context (E : env).
Hypothesis Hanswers : answers_outside_instrumentation E.

Lemma total_bind {A B} p q r (m : M A) (k : A -> M B) :
  total p m q -> (forall a, total q (k a) r) -> total p (bind m k) r.
Proof.
  intros Hm Hk w Hp. destruct (Hm w Hp) as (a & w1 & Hrun & Hq).
  destruct (Hk a w1 Hq) as (b & w2 & Hrun2 & Hr).
  exists b, w2. split; [|done]. unfold bind. by rewrite Hrun.
Qed.

Lemma total_ext {X} p (c : call X) :
  is_instrumentation (ev c) = false -> total p (ext E c) p.
Proof.
  intros Hc w Hp. destruct (Hanswers X (length (trail w)) c Hc) as [x Hx].
  exists x. eexists. split; [unfold ext; by rewrite Hx|]. done.
Qed.

Lemma total_logger p l msg : total p (logger l msg) p.
Proof. intros w Hp. exists tt. eexists. split; [reflexivity|]. done. Qed.

Lemma total_assign p q f :
  (forall s r, p s r -> q (f s) r) -> total p (assign f) q.
Proof. intros Hf w Hp. exists tt. eexists. split; [reflexivity|]. by apply Hf. Qed.

Lemma total_assign_keep p f :
  (forall s r, p s r -> p (f s) r) -> total p (assign f) p.
Proof. apply total_assign. Qed.

Lemma total_try_body {A} p q (body : M A) handler :
  total p body q -> total p (try_except body handler) q.
Proof.
  intros Hb w Hp. destruct (Hb w Hp) as (a & w1 & Hrun & Hq).
  exists a, w1. split; [|done]. unfold try_except. by rewrite Hrun.
Qed.

Lemma total_quiet {A} p (m : M A) :
  never_raises m -> keeps same_core m -> total p m p.
Proof.
  intros Hnr Hk w Hp. destruct (Hnr w) as (a & w1 & Hrun).
  specialize (Hk w). rewrite Hrun in Hk. destruct Hk as [Hs Hr]. simpl in Hs, Hr.
  exists a, w1. split; [done|]. by rewrite Hs, Hr.
Qed.

Lemma total_create_metrics :
  total (fun s r => meter s = Some tt
                    /\ forall n, n ∈ service_instrument_names -> n ∉ map inst_name r)
    _create_metrics (fun _ _ => True).
Proof.
  intros w [Hm Hfresh]. destruct (create_metrics_fresh w Hm Hfresh) as (w1 & Hrun & _).
  by exists tt, w1.
Qed.

End Total.

Ltac total_chain Hanswers :=
  lazymatch goal with
  | |- total _ (bind _ _) _ =>
      eapply total_bind; [total_chain Hanswers | intros ?; total_chain Hanswers]
  | |- total _ (ext _ _) _ => apply total_ext; [exact Hanswers | reflexivity]
  | |- total _ (logger _ _) _ => apply total_logger
  | |- total _ (try_except _ _) _ => apply total_try_body; total_chain Hanswers
  | |- total _ (assign _) _ =>
      apply total_assign_keep; let H := fresh in intros ? ? H; exact H
  end.

(** X12: a failure of auto-instrumentation does not keep the service from
    starting.  When every collaborator call outside [_instrument_libraries]
    is answered, a credential is configured and none of the eight
    instrument names is registered yet, [init_app] returns with the service
    enabled and fully wired, whether the instrumentation calls succeed or
    raise. *)
Theorem init_app_survives_failing_instrumentation (E : env) (credential : option string)
    (w : world) :
  answers_outside_instrumentation E ->
  truthy credential = true ->
  (forall n, n ∈ service_instrument_names -> n ∉ map inst_name (registry w)) ->
  exists w',
    init_app E credential w = (Returned tt, w')
    /\ enabled (svc w') = true
    /\ wired (svc w').
Proof.
  intros Hanswers Hcred Hfresh.
  assert (exists w', init_app E credential w = (Returned tt, w')
                     /\ enabled (svc w') = true) as (w' & Hrun & Hen).
  { unfold init_app. rewrite !bind_assign. unfold bind at 1. unfold get_self at 1.
    cbn [svc set_svc connection_string set_connection_string]. rewrite Hcred. cbn [negb].
    set (w0 := set_svc _ _).
    match goal with
    | |- context [try_except ?b ?h w0] =>
        assert (total
                  (fun _ r => forall n, n ∈ service_instrument_names -> n ∉ map inst_name r)
                  b (fun s _ => enabled s = true)) as Hbody
    end.
    { unfold _register_flask_hooks, _start_system_monitoring.
      do 10 (eapply total_bind; [total_chain Hanswers | intros _]).
      eapply total_bind;
        [apply (total_assign _
                  (fun s r => meter s = Some tt
                     /\ forall n, n ∈ service_instrument_names -> n ∉ map inst_name r));
         intros s r H; by split | intros _].
      eapply total_bind; [apply total_create_metrics | intros _].
      eapply total_bind;
        [apply total_quiet;
         [apply instrument_libraries_never_raises | apply same_core_instrument_libraries]
        | intros _].
      do 2 (eapply total_bind; [total_chain Hanswers | intros _]).
      eapply total_bind;
        [apply (total_assign _ (fun s _ => enabled s = true)); by intros | intros _].
      total_chain Hanswers. }
    destruct (Hbody w0 Hfresh) as ([] & w1 & Hrun & Hen).
    exists w1. split; [by apply try_except_run | done]. }
  exists w'. split; [done|]. split; [done|].
  destruct (init_app_outcome E credential w tt w' Hcred Hrun) as [[_ Hw]|[Hoff _]];
    [done | congruence].
Qed.

Lemma string_app_nil_l (s : string) : EmptyString +:+ s = s.
Proof. reflexivity. Qed.

Lemma string_app_cons a (s t : string) : String a s +:+ t = String a (s +:+ t).
Proof. reflexivity. Qed.

Ltac string_simpl :=
  simpl; rewrite ?string_app_nil_l, ?string_app_cons; simpl.

Lemma string_app_nil_r (s : string) : s +:+ EmptyString = s.
Proof. induction s as [|a s IH]; string_simpl; congruence. Qed.

Lemma string_app_assoc (a b c : string) : (a +:+ b) +:+ c = a +:+ (b +:+ c).
Proof. induction a as [|x a IH]; string_simpl; congruence. Qed.

Lemma string_rev_app_acc (s t : string) :
  String.rev_app s t = String.rev_app s EmptyString +:+ t.
Proof.
  revert t. induction s as [|a s IH]; intros t; simpl; [done|].
  rewrite (IH (String a t)), (IH (String a EmptyString)).
  by rewrite string_app_assoc.
Qed.

Lemma string_rev_nil : String.rev EmptyString = EmptyString.
Proof. reflexivity. Qed.

Lemma string_rev_cons a (s : string) :
  String.rev (String a s) = String.rev s +:+ String a EmptyString.
Proof. unfold String.rev. simpl. apply string_rev_app_acc. Qed.

#[local] Opaque String.rev.

Ltac string_rev_simpl :=
  string_simpl; rewrite ?string_rev_nil, ?string_rev_cons; string_simpl.

Lemma string_rev_app (a b : string) : String.rev (a +:+ b) = String.rev b +:+ String.rev a.
Proof.
  induction a as [|x a IH]; string_rev_simpl.
  - by rewrite string_app_nil_r.
  - by rewrite IH, string_app_assoc.
Qed.

Lemma string_rev_involutive (s : string) : String.rev (String.rev s) = s.
Proof.
  induction s as [|x s IH]; string_rev_simpl; [done|].
  rewrite string_rev_app. string_rev_simpl. by rewrite IH.
Qed.

Lemma all_chars_app p (a b : string) :
  all_chars p (a +:+ b) = all_chars p a && all_chars p b.
Proof. induction a as [|x a IH]; string_rev_simpl; [done|]. by rewrite IH, andb_assoc. Qed.

Lemma all_chars_rev p (s : string) : all_chars p (String.rev s) = all_chars p s.
Proof.
  induction s as [|x s IH]; string_rev_simpl; [done|].
  rewrite all_chars_app, IH. string_rev_simpl. rewrite andb_true_r. apply andb_comm.
Qed.

Lemma all_chars_impl (p q : Ascii.ascii -> bool) (s : string) :
  (forall a, p a = true -> q a = true) -> all_chars p s = true -> all_chars q s = true.
Proof.
  intros Hpq. induction s as [|x s IH]; string_rev_simpl; [done|].
  rewrite !andb_true_iff. intros [? ?]. auto.
Qed.

Lemma space_is_no_comma a : is_py_space a = true -> negb (is_comma a) = true.
Proof.
  unfold is_comma. destruct (Ascii.eqb a (Ascii.ascii_of_nat 44)) eqn:Heq; [|done].
  apply Ascii.eqb_eq in Heq. subst a. by vm_compute.
Qed.

Lemma lstrip_padding (pad s : string) :
  all_chars is_py_space pad = true -> lstrip (pad +:+ s) = lstrip s.
Proof.
  induction pad as [|x pad IH]; string_rev_simpl; [done|].
  rewrite andb_true_iff. intros [-> ?]. auto.
Qed.

Lemma lstrip_spaces (pad : string) :
  all_chars is_py_space pad = true -> lstrip pad = EmptyString.
Proof.
  induction pad as [|x pad IH]; simpl; [done|].
  rewrite andb_true_iff. intros [-> ?]. auto.
Qed.

Lemma lstrip_clean (s : string) : starts_clean s = true -> lstrip s = s.
Proof. destruct s as [|a s]; string_rev_simpl; [done|]. by intros ->%negb_true_iff. Qed.

Lemma starts_clean_app (a b : string) :
  starts_clean a = true -> starts_clean b = true -> starts_clean (a +:+ b) = true.
Proof. by destruct a. Qed.

Lemma lstrip_clean_app (a b : string) :
  starts_clean a = true -> a <> EmptyString -> lstrip (a +:+ b) = a +:+ b.
Proof. destruct a as [|x a]; string_rev_simpl; [done|]. by intros ->%negb_true_iff. Qed.

Lemma before_comma_free (s : string) :
  all_chars (fun a => negb (is_comma a)) s = true -> before_comma s = s.
Proof.
  induction s as [|x s IH]; string_rev_simpl; [done|].
  rewrite andb_true_iff. unfold is_comma at 1. intros [->%negb_true_iff ?].
  by rewrite IH.
Qed.

Lemma before_comma_cut (s rest : string) :
  all_chars (fun a => negb (is_comma a)) s = true ->
  before_comma (s +:+ String (Ascii.ascii_of_nat 44) rest) = s.
Proof.
  induction s as [|x s IH]; string_rev_simpl; [done|].
  rewrite andb_true_iff. unfold is_comma at 1. intros [->%negb_true_iff ?].
  by rewrite IH.
Qed.

Lemma strip_padded (pad1 hop pad2 : string) :
  all_chars is_py_space pad1 = true ->
  all_chars is_py_space pad2 = true ->
  starts_clean hop = true ->
  starts_clean (String.rev hop) = true ->
  strip (pad1 +:+ hop +:+ pad2) = hop.
Proof.
  intros H1 H2 Hs He. unfold strip. rewrite lstrip_padding by done.
  destruct hop as [|c hop].
  - string_rev_simpl. rewrite (lstrip_spaces pad2) by done.
    rewrite string_rev_nil. simpl. apply string_rev_nil.
  - rewrite lstrip_clean_app by done.
    rewrite string_rev_app, lstrip_padding by (by rewrite all_chars_rev).
    rewrite lstrip_clean by done. apply string_rev_involutive.
Qed.

(** X13: the client address recorded for a session is the first hop of
    the forwarded list.  For a hop without a comma that neither begins nor
    ends with white space, [user_ip.split(',')[0].strip()] returns the hop
    itself, whatever white space surrounds it and whatever follows the
    first comma, and likewise when the value holds no comma at all. *)
Theorem first_forwarded_hop_is_extracted (pad1 hop pad2 rest : string) :
  all_chars is_py_space pad1 = true ->
  all_chars is_py_space pad2 = true ->
  all_chars (fun a => negb (is_comma a)) hop = true ->
  starts_clean hop = true ->
  starts_clean (String.rev hop) = true ->
  strip (before_comma (pad1 +:+ hop +:+ pad2 +:+ String (Ascii.ascii_of_nat 44) rest)) = hop
  /\ strip (before_comma (pad1 +:+ hop +:+ pad2)) = hop.
Proof.
  intros H1 H2 Hc Hs He.
  assert (all_chars (fun a => negb (is_comma a)) (pad1 +:+ hop +:+ pad2) = true) as Hfree.
  { rewrite !all_chars_app, Hc.
    rewrite (all_chars_impl _ _ pad1 space_is_no_comma H1).
    by rewrite (all_chars_impl _ _ pad2 space_is_no_comma H2). }
  split.
  - replace (pad1 +:+ hop +:+ pad2 +:+ String (Ascii.ascii_of_nat 44) rest)
      with ((pad1 +:+ hop +:+ pad2) +:+ String (Ascii.ascii_of_nat 44) rest)
      by (by rewrite !string_app_assoc).
    rewrite before_comma_cut by done. by apply strip_padded.
  - rewrite before_comma_free by done. by apply strip_padded.
Qed.

#[local] Transparent String.rev.

(** ** Database queries and the system gauges *)

(** X14: with the service enabled and the histogram created,
    [track_database_query] makes exactly one collaborator call, the record
    of the duration as given with the query name and the success flag, and
    returns whatever that call does; it logs nothing when the record goes
    through and exactly one warning, carrying the message of the error,
    when the record raises; the service object is left alone. *)
Theorem database_query_is_recorded_once (E : env) (w : world) (h : instrument)
    (query_name : string) (duration_ms : Q) (success : bool) :
  enabled (svc w) = true ->
  db_query_duration (svc w) = Some h ->
  exists w',
    track_database_query E query_name duration_ms success w = (Returned tt, w')
    /\ svc w' = svc w
    /\ trail w' = trail w ++
         [ev (histogram_record h duration_ms
                [("db.query.name", AStr query_name); ("db.query.success", ABool success)])]
    /\ logged w' =
         match E unit (length (trail w))
                 (histogram_record h duration_ms
                    [("db.query.name", AStr query_name);
                     ("db.query.success", ABool success)])
         with
         | inr _ => logged w
         | inl e =>
             logged w ++
               [(WARNING, "[MONITORING] Error tracking database query: " +:+ exc_message e)]
         end.
Proof.
  intros Hon Hh. unfold track_database_query, bind at 1. unfold get_self at 1.
  rewrite Hon, Hh. unfold try_except, ext.
  destruct (E unit (length (trail w)) _) as [e|[]] eqn:Hreply;
    eexists; (split; [reflexivity|]); cbn; done.
Qed.

(** X15: a system gauge reports what its sampler returned.  When the
    sampling call of the CPU, memory or disk callback answers [x], the
    callback yields exactly one observation, of value [x], makes no other
    collaborator call, logs nothing and leaves the service object alone. *)
Theorem system_gauge_yields_the_sampled_value (E : env) (w : world) (cb : callback) (x : Q) :
  cb <> cb_get_active_users_count ->
  E Q (length (trail w)) (sampling_call cb) = inr x ->
  exists w',
    run_callback E cb w = (Returned [mkObservation x], w')
    /\ svc w' = svc w
    /\ logged w' = logged w
    /\ trail w' = trail w ++ [ev (sampling_call cb)].
Proof.
  intros Hcb Hx. destruct cb; [| | |done]; simpl in *;
    unfold _get_cpu_usage, _get_memory_usage, _get_disk_usage, try_except, bind, ext, ret;
    rewrite Hx; eexists; done.
Qed.

(** ** The further properties at concrete inputs *)

(** Two reads, at 0 s and 1 s, of the tracker holding 100 s, 500 s and
    1000 s. *)
Lemma second_read_never_counts_more_witness :
  exists n1 n2 w1 w2,
    _get_active_users_count (quiet (ticking 1)) crowded
      = (Returned [mkObservation (inject_Z (Z.of_nat n1))], w1)
    /\ _get_active_users_count (quiet (ticking 1)) w1
      = (Returned [mkObservation (inject_Z (Z.of_nat n2))], w2)
    /\ (n2 <= n1)%nat
    /\ active_users (svc w2) ⊆ active_users (svc w1)
    /\ active_users (svc w1) ⊆ active_users (svc crowded).
Proof.
  apply (second_read_never_counts_more (quiet (ticking 1)) crowded
           (ticking 1 0) (ticking 1 1)); reflexivity.
Defined.

(** A touch of identity 2, already among the three of the tracker. *)
Lemma touch_adds_at_most_one_entry_witness :
  exists w',
    _track_user_activity (quiet (ticking 1)) 2 crowded = (Returned tt, w')
    /\ (size (active_users (svc w')) <= size (active_users (svc crowded)))%nat.
Proof.
  destruct (touch_adds_at_most_one_entry (quiet (ticking 1)) crowded 2%Z
              (ticking 1 0) (ticking 1 1)) as (w' & Hrun & _ & Hknown & _).
  - reflexivity.
  - reflexivity.
  - exists w'. split; [exact Hrun|]. apply Hknown.
    exists 500%Q. by vm_compute.
Defined.

(** A touch while the clock raises. *)
Lemma touch_survives_a_failing_clock_witness :
  exists w',
    _track_user_activity hostile 7 fresh = (Returned tt, w')
    /\ svc w' = svc fresh
    /\ logged w' = logged fresh ++
         [(WARNING, "[MONITORING] Error tracking user activity: collaborator failure")].
Proof.
  destruct (touch_survives_a_failing_clock hostile fresh 7%Z) as (Hfirst & _).
  apply (Hfirst (Exn "RuntimeError" "collaborator failure")). reflexivity.
Defined.

(** An event with two properties on the running service. *)
Lemma custom_event_carries_every_property_witness :
  exists sp w',
    track_custom_event (quiet (ticking 1)) "report.generated"
      (Some [("pages", PyInt 3); ("format", PyStr "pdf")]) serving = (Returned tt, w')
    /\ svc w' = svc serving
    /\ logged w' = logged serving
    /\ trail w' = trail serving ++
         ev (start_as_current_span "report.generated")
         :: map (fun kv => ev (span_set_attribute sp kv.1 (AStr (str kv.2))))
              (default [] (Some [("pages", PyInt 3); ("format", PyStr "pdf")]))
         ++ [ev (span_exit sp None)].
Proof.
  apply (custom_event_carries_every_property (quiet (ticking 1)) serving
           "report.generated" (Some [("pages", PyInt 3); ("format", PyStr "pdf")])).
  - by vm_compute.
  - exists tt. by vm_compute.
  - apply calm_quiet.
Defined.

(** A login of user 42 inside a request whose forwarding header starts with
    a no-break space, and a logout recorded outside a request. *)
Lemma user_session_is_counted_once_witness :
  (exists cs sp w',
      track_user_session (quiet (ticking 1)) 42 "login" None forwarded = (Returned tt, w')
      /\ logged w' = logged forwarded
      /\ trail w' = trail forwarded
           ++ user_session_calls cs sp (flask_request forwarded) 42 "login" None
           ++ [ev (counter_add "app.user.sessions" 1 [("session.event", AStr "login")])]
      /\ client_ip_events sp (flask_request forwarded)
         = [ev (span_set_attribute sp "client.ip" (AStr "10.1.2.3"))])
  /\ (exists cs sp w',
      track_user_session (quiet (ticking 1)) 42 "logout" None offline = (Returned tt, w')
      /\ logged w' = logged offline
      /\ trail w' = trail offline
           ++ user_session_calls cs sp (flask_request offline) 42 "logout" None
           ++ [ev (counter_add "app.user.sessions" 1 [("session.event", AStr "logout")])]
      /\ client_ip_events sp (flask_request offline) = []).
Proof.
  split.
  - destruct (user_session_is_counted_once (quiet (ticking 1)) forwarded 42%Z "login" None
                "app.user.sessions")
      as (cs & sp & w' & Hrun & _ & Hlog & Htrail & _).
    + by vm_compute.
    + exists tt. by vm_compute.
    + by vm_compute.
    + apply calm_quiet.
    + exists cs, sp, w'. split; [exact Hrun|]. split; [exact Hlog|].
      split; [exact Htrail | reflexivity].
  - destruct (user_session_is_counted_once (quiet (ticking 1)) offline 42%Z "logout" None
                "app.user.sessions")
      as (cs & sp & w' & Hrun & _ & Hlog & Htrail & _ & Hout).
    + by vm_compute.
    + exists tt. by vm_compute.
    + by vm_compute.
    + apply calm_quiet.
    + exists cs, sp, w'. split; [exact Hrun|]. split; [exact Hlog|].
      split; [exact Htrail | apply Hout; reflexivity].
Defined.

(** The start of a request on the running service. *)
Lemma before_request_captures_the_start_time_witness :
  exists w' pre,
    before_request (quiet (ticking 1)) serving = (Returned tt, w')
    /\ request_start_time (flask_g w') = Some (ticking 1 (length (trail serving)))
    /\ same_wiring serving w'
    /\ trail w' = trail serving ++ ev time_time :: pre
    /\ List.filter is_metric pre = [].
Proof.
  destruct (before_request_captures_the_start_time (quiet (ticking 1)) serving)
    as (Hstart & _).
  apply Hstart. reflexivity.
Defined.

(** The start of a request without an authenticated user. *)
Lemma before_request_without_user_touches_nothing_witness :
  svc (snd (before_request (anonymous (ticking 1)) serving)) = svc serving
  /\ user_id (flask_g (snd (before_request (anonymous (ticking 1)) serving)))
     = user_id (flask_g serving).
Proof.
  apply (before_request_without_user_touches_nothing (anonymous (ticking 1)) serving).
  intros n id. simpl. discriminate.
Defined.

(** The start of a request of user 42 on the running service. *)
Lemma authenticated_request_makes_the_user_active_witness :
  exists w1,
    before_request (quiet (ticking 1)) serving = (Returned tt, w1)
    /\ flask_g w1 = mkG (Some (ticking 1 (length (trail serving)))) (Some (pretty 42%Z))
    /\ active_users (svc w1) !! 42%Z = Some (ticking 1 (length (trail serving) + 4)).
Proof.
  destruct (authenticated_request_makes_the_user_active (quiet (ticking 1)) serving 42%Z
              (ticking 1 (length (trail serving)))
              (ticking 1 (length (trail serving) + 4))
              (ticking 1 (length (trail serving) + 5)))
    as (w1 & Hrun & Hg & Hin & _).
  - reflexivity.
  - reflexivity.
  - reflexivity.
  - reflexivity.
  - reflexivity.
  - reflexivity.
  - by vm_compute.
  - exists w1. split; [exact Hrun|]. split; [exact Hg | exact Hin].
Defined.

(** Both hooks around a GET request answered with status 200. *)
Lemma request_duration_spans_both_hooks_witness :
  exists w' t0 t1 between,
    (before_request (quiet (ticking 1)) ;;;
     after_request (quiet (ticking 1)) (mkResponse 200 "ok")) serving
      = (Returned (mkResponse 200 "ok"), w')
    /\ quiet (ticking 1) Q (length (trail serving)) time_time = inr t0
    /\ quiet (ticking 1) Q (length (trail serving ++ ev time_time :: between)) time_time
       = inr t1
    /\ trail w' = trail serving ++ ev time_time :: between ++
         [ev time_time;
          ev (histogram_record "http.server.request.duration" ((t1 - t0) * 1000)%Q
                [("http.method", AStr "GET");
                 ("http.route", AStr "main.index");
                 ("http.status_code", AInt 200)]);
          ev (counter_add "http.server.requests.total" 1
                [("http.method", AStr "GET");
                 ("http.status_code", AInt 200)])]
    /\ List.filter is_metric between = [].
Proof.
  apply (request_duration_spans_both_hooks (quiet (ticking 1)) serving
           (mkResponse 200 "ok") "http.server.request.duration"
           "http.server.requests.total"
           (mkRequest "GET" (Some "main.index") None (Some "10.0.0.1"))).
  - by vm_compute.
  - by vm_compute.
  - by vm_compute.
  - reflexivity.
  - intros n. eexists. reflexivity.
  - intros n v a. reflexivity.
  - intros n a. reflexivity.
Defined.

(** Initialisation with collaborators that all raise. *)
Lemma init_app_enables_only_a_wired_service_witness :
  exists w',
    init_app hostile (Some "InstrumentationKey=k") fresh = (Returned tt, w')
    /\ ((enabled (svc w') = true /\ wired (svc w'))
        \/ (enabled (svc w') = false
            /\ exists e, last (logged w')
                         = Some (ERROR, "[MONITORING] Failed to initialize: "
                                        +:+ exc_message e))).
Proof.
  destruct (init_app_enables_only_a_wired_service hostile (Some "InstrumentationKey=k")
              fresh) as (w' & Hrun & Hcases).
  exists w'. split; [exact Hrun|]. apply Hcases. reflexivity.
Defined.

(** Initialisation while every auto-instrumentation call raises. *)
Lemma init_app_survives_failing_instrumentation_witness :
  exists w',
    init_app (instrumentation_broken (ticking 1)) (Some "InstrumentationKey=k") fresh
      = (Returned tt, w')
    /\ enabled (svc w') = true
    /\ wired (svc w').
Proof.
  apply (init_app_survives_failing_instrumentation (instrumentation_broken (ticking 1))
           (Some "InstrumentationKey=k") fresh).
  - intros X n c Hc. unfold instrumentation_broken. rewrite Hc. apply calm_quiet.
  - reflexivity.
  - intros n _. simpl. apply not_elem_of_nil.
Defined.

(** A forwarded list of two hops; the first has a no-break space (U+00A0)
    and a blank before it and a next-line character (U+0085) after it. *)
Lemma first_forwarded_hop_is_extracted_witness :
  strip (before_comma
           (String (Ascii.ascii_of_nat 160)
              (" 203.0.113.7" +:+ String (Ascii.ascii_of_nat 133) ", 10.0.0.1")))
    = "203.0.113.7"
  /\ strip (before_comma
              (String (Ascii.ascii_of_nat 160)
                 (" 203.0.113.7" +:+ String (Ascii.ascii_of_nat 133) EmptyString)))
     = "203.0.113.7".
Proof.
  apply (first_forwarded_hop_is_extracted
           (String (Ascii.ascii_of_nat 160) " ") "203.0.113.7"
           (String (Ascii.ascii_of_nat 133) EmptyString) " 10.0.0.1");
    by vm_compute.
Defined.

(** A query of 12.5 ms on the running service, once with a histogram that
    records and once with one that raises. *)
Lemma database_query_is_recorded_once_witness :
  (exists w',
      track_database_query (quiet (ticking 1)) "load_documents" (25 # 2) true serving
        = (Returned tt, w')
      /\ trail w' = trail serving ++
           [ev (histogram_record "db.query.duration" (25 # 2)
                  [("db.query.name", AStr "load_documents");
                   ("db.query.success", ABool true)])]
      /\ logged w' = logged serving)
  /\ (exists w',
      track_database_query hostile "load_documents" (25 # 2) true serving
        = (Returned tt, w')
      /\ trail w' = trail serving ++
           [ev (histogram_record "db.query.duration" (25 # 2)
                  [("db.query.name", AStr "load_documents");
                   ("db.query.success", ABool true)])]
      /\ logged w' = logged serving ++
           [(WARNING, "[MONITORING] Error tracking database query: collaborator failure")]).
Proof.
  split.
  - destruct (database_query_is_recorded_once (quiet (ticking 1)) serving
                "db.query.duration" "load_documents" (25 # 2) true)
      as (w' & Hrun & _ & Htrail & Hlog).
    + by vm_compute.
    + by vm_compute.
    + exists w'. split; [exact Hrun|]. split; [exact Htrail | exact Hlog].
  - destruct (database_query_is_recorded_once hostile serving
                "db.query.duration" "load_documents" (25 # 2) true)
      as (w' & Hrun & _ & Htrail & Hlog).
    + by vm_compute.
    + by vm_compute.
    + exists w'. split; [exact Hrun|]. split; [exact Htrail | exact Hlog].
Defined.

(** The CPU gauge when psutil answers 12.5. *)
Lemma system_gauge_yields_the_sampled_value_witness :
  exists w',
    run_callback (quiet (ticking 1)) cb_get_cpu_usage fresh
      = (Returned [mkObservation (25 # 2)], w')
    /\ svc w' = svc fresh
    /\ logged w' = logged fresh
    /\ trail w' = trail fresh ++ [ev (sampling_call cb_get_cpu_usage)].
Proof.
  apply (system_gauge_yields_the_sampled_value (quiet (ticking 1)) fresh
           cb_get_cpu_usage (25 # 2)).
  - discriminate.
  - reflexivity.
Defined.
